(** * ArduFSM: the timed-state engine and the MultiSens trial state machine

    A shallow embedding of
    - [TimedState::run] (libraries/TimedState, TimedState.cpp),
    - the MultiSens protocol states (MultiSens/States.cpp),
    - the MultiSens sketch: [loop], [take_action], [safe_int_convert],
    - the older single-parameter sketch with its String based
      [safe_int_convert],
    followed by the properties of the specification that were checked
    against them.

    Machine integers are [Z] with the wrap-around written out.  The target
    is an AVR board: [unsigned long] and [long] are 32 bits wide, [int] and
    [unsigned int] are 16 bits wide. *)

From Stdlib Require Import ZArith Bool Ascii String List Lia.
Import ListNotations.
Local Open Scope Z_scope.

(* ================================================================== *)
(** ** Machine arithmetic *)

Module CTypes.

(** Conversion to [unsigned long]: reduction modulo 2^32. *)
Definition ulong (z : Z) : Z := z mod 4294967296.

(** Conversion to [long]: the two's complement reading of the low 32 bits. *)
Definition long (z : Z) : Z := (z + 2147483648) mod 4294967296 - 2147483648.

(** Conversion to [unsigned int]: reduction modulo 2^16. *)
Definition uint (z : Z) : Z := z mod 65536.

(** Conversion to [int]: the two's complement reading of the low 16 bits. *)
Definition int (z : Z) : Z := (z + 32768) mod 65536 - 32768.

(** The values an [unsigned long] can hold, e.g. what [millis()] returns. *)
Definition is_ulong (z : Z) : Prop := 0 <= z < 4294967296.

End CTypes.

(* ================================================================== *)
(** ** libraries/TimedState: TimedState.cpp *)

Module TimedStateLib.
Import CTypes.

(** The virtual member functions [run] dispatches to, as they appear in
    the trace of one call. *)
Inductive Hook : Set := Setup | Loop | Finish.

(** The data members [run] reads and writes; [ext] holds the members a
    derived class adds. *)
Record TimedState (X : Type) : Type := mkTimedState {
  time_of_last_call : Z;
  timer : Z;
  duration : Z;
  flag_stop : bool;
  ext : X
}.

Arguments mkTimedState {X}.
Arguments time_of_last_call {X}.
Arguments timer {X}.
Arguments duration {X}.
Arguments flag_stop {X}.
Arguments ext {X}.

Section Engine.

Context {X G : Type}.

Definition set_time_of_last_call (t : Z) (s : TimedState X) : TimedState X :=
  mkTimedState t (timer s) (duration s) (flag_stop s) (ext s).

Definition set_timer (t : Z) (s : TimedState X) : TimedState X :=
  mkTimedState (time_of_last_call s) t (duration s) (flag_stop s) (ext s).

Definition set_duration (d : Z) (s : TimedState X) : TimedState X :=
  mkTimedState (time_of_last_call s) (timer s) d (flag_stop s) (ext s).

Definition set_flag_stop (b : bool) (s : TimedState X) : TimedState X :=
  mkTimedState (time_of_last_call s) (timer s) (duration s) b (ext s).

Definition set_ext (x : X) (s : TimedState X) : TimedState X :=
  mkTimedState (time_of_last_call s) (timer s) (duration s) (flag_stop s) x.

(** A member function without arguments: it may change the object and
    the globals [G] of the sketch. *)
Definition method : Type := TimedState X -> G -> TimedState X * G.

(** The default body of the virtual functions: [{}]. *)
Definition nothing : method := fun this g => (this, g).

(** The virtual functions of a class derived from [TimedState]. *)
Record vtable : Type := mkVtable {
  s_setup : method;
  loop : method;
  s_finish : method;
  update : method
}.

(** [void TimedState::run(unsigned long time)], with the hooks it called. *)
Definition run (v : vtable) (time : Z) (this : TimedState X) (g : G)
  : TimedState X * G * list Hook :=
  (* always store time of last call *)
  let this := set_time_of_last_call time this in
  (* boiler plate timer code *)
  let '(this, g, called) :=
    if timer this =? 0 then
      let '(this, g) := s_setup v this g in
      let this := set_flag_stop false this in
      let this := set_timer (ulong (time + duration this)) this in
      (this, g, [Setup])
    else (this, g, []) in
  if flag_stop this || (timer this <=? time) then
    let '(this, g) := s_finish v this g in
    let this := set_timer 0 this in
    (this, g, called ++ [Finish])
  else
    let '(this, g) := loop v this g in
    (this, g, called ++ [Loop]).

(** The parts of what one call returns. *)
Definition obj (r : TimedState X * G * list Hook) : TimedState X := fst (fst r).
Definition glob (r : TimedState X * G * list Hook) : G := snd (fst r).
Definition trace (r : TimedState X * G * list Hook) : list Hook := snd r.

(** Successive calls [run(t)] for the times of a list, each on the object
    and globals the previous one left; one result per call. *)
Fixpoint runs (v : vtable) (times : list Z) (this : TimedState X) (g : G)
  : list (TimedState X * G * list Hook) :=
  match times with
  | [] => []
  | t :: ts =>
      let r := run v t this g in
      r :: runs v ts (obj r) (glob r)
  end.

(** The deadline the first call of an activation stores in [timer]:
    [time + duration] in [unsigned long] arithmetic, with the duration
    that [s_setup] left. *)
Definition deadline (v : vtable) (time : Z) (this : TimedState X) (g : G) : Z :=
  ulong (time + duration (fst (s_setup v (set_time_of_last_call time this) g))).

(** The object and the globals as the block under [if (timer == 0)]
    leaves them on the first call of an activation. *)
Definition activated (v : vtable) (time : Z) (this : TimedState X) (g : G)
  : TimedState X * G :=
  let s := s_setup v (set_time_of_last_call time this) g in
  (set_timer (ulong (time + duration (fst s))) (set_flag_stop false (fst s)), snd s).

(** The hooks called over a whole activation of [n] calls. *)
Definition lifecycle (n : nat) : list (list Hook) :=
  match n with
  | O => []
  | S O => [[Setup; Finish]]
  | S (S m) => [Setup; Loop] :: repeat [Loop] m ++ [[Finish]]
  end.

(** [loop] leaves the deadline alone (none of the sketch's states
    assigns [timer]). *)
Definition loop_keeps_timer (v : vtable) : Prop :=
  forall this g, timer (fst (loop v this g)) = timer this.

(** An activation: calls that begin with the sentinel [timer = 0] and end
    with the first call that puts the sentinel back. *)
Definition activation (v : vtable) (times : list Z) (this : TimedState X) (g : G) : Prop :=
  timer this = 0 /\
  times <> [] /\
  forall k r, nth_error (runs v times this g) k = Some r ->
    (timer (obj r) = 0 <-> S k = length times).

(** The flag as the [k]-th call of [runs] finds it. *)
Definition flag_before (v : vtable) (times : list Z) (this : TimedState X) (g : G)
  (k : nat) : bool :=
  match k with
  | O => flag_stop this
  | S j => match nth_error (runs v times this g) j with
           | Some r => flag_stop (obj r)
           | None => false
           end
  end.

(** [s_finish] is called by the [k]-th call of [runs]. *)
Definition fires (v : vtable) (times : list Z) (this : TimedState X) (g : G)
  (k : nat) : Prop :=
  exists r, nth_error (runs v times this g) k = Some r /\ In Finish (trace r).

End Engine.

Arguments method : clear implicits.
Arguments vtable : clear implicits.

End TimedStateLib.

(* ================================================================== *)
(** ** MultiSens/States.cpp *)

Module States.
Import CTypes TimedStateLib.

(** The states of the protocol, as the sketch lists them.  (The enum is
    declared in MultiSens' States.h, which is not among the sources; only
    the tags matter here.) *)
Inductive STATE_TYPE : Set :=
| WAIT_TO_START_TRIAL
| TRIAL_START
| STIM_PERIOD
| RESPONSE_WINDOW
| REWARD
| POST_REWARD_PAUSE
| ERROR
| INTER_TRIAL_INTERVAL.

Definition STATE_TYPE_eqb (a b : STATE_TYPE) : bool :=
  match a, b with
  | WAIT_TO_START_TRIAL, WAIT_TO_START_TRIAL
  | TRIAL_START, TRIAL_START
  | STIM_PERIOD, STIM_PERIOD
  | RESPONSE_WINDOW, RESPONSE_WINDOW
  | REWARD, REWARD
  | POST_REWARD_PAUSE, POST_REWARD_PAUSE
  | ERROR, ERROR
  | INTER_TRIAL_INTERVAL, INTER_TRIAL_INTERVAL => true
  | _, _ => false
  end.

(** The response and outcome codes of MultiSens' States.h and the
    TrialSpeak constant of chat.h.  Neither header is among the sources,
    so the codes are parameters of everything that uses them. *)
Record Codes : Set := mkCodes {
  GO : Z;
  NOGO : Z;
  OUTCOME_HIT : Z;
  OUTCOME_FA : Z;
  OUTCOME_CR : Z;
  OUTCOME_MISS : Z;
  __TRIAL_SPEAK_NO : Z
}.

(** Values for the codes, used where a closed example needs some: [GO]
    is 1, the value [StimPeriod::loop] tests [REW] against on a rewarded
    trial; no code is 0, the two responses differ and the four outcomes
    differ. *)
Definition sample_codes : Codes :=
  {| GO := 1; NOGO := 2;
     OUTCOME_HIT := 1; OUTCOME_FA := 2; OUTCOME_CR := 3; OUTCOME_MISS := 4;
     __TRIAL_SPEAK_NO := 2 |}.

(** Modelled from the spec: the [tpidx_] macros are declared in MultiSens'
    States.h, which is not among the sources.  Each macro is the position,
    in [param_abbrevs], of the abbreviation the sketch documents for the
    parameter (STIMDUR stimulus duration, REW rewarded or not, REW_DUR
    reward duration, IRI inter-reward interval, TO timeout, ITI inter-trial
    interval, RWIN response window, MRT maximum rewards per trial, TOE
    terminate on error). *)
Definition N_TRIAL_PARAMS : nat := 11.
Definition tpidx_STPRIDX : nat := 0.
Definition tpidx_SPKRIDX : nat := 1.
Definition tpidx_STIM_DUR : nat := 2.
Definition tpidx_REW : nat := 3.
Definition tpidx_REW_DUR : nat := 4.
Definition tpidx_INTER_REWARD_INTERVAL : nat := 5.
Definition tpidx_ERROR_TIMEOUT : nat := 6.
Definition tpidx_ITI : nat := 7.
Definition tpidx_RESP_WIN_DUR : nat := 8.
Definition tpidx_MRT : nat := 9.
Definition tpidx_TERMINATE_ON_ERR : nat := 10.

(** The two results RESP and OUTC of [results_abbrevs], indexed as in the
    States.h that is among the sources (the header of another protocol). *)
Definition N_TRIAL_RESULTS : nat := 2.
Definition tridx_RESPONSE : nat := 0.
Definition tridx_OUTCOME : nat := 1.

(** config.h is not among the sources; [devIndices] has two entries. *)
Definition NUM_DEVICES : nat := 2.

Definition lickThresh : Z := 900.

Definition param_abbrevs : list string :=
  ["STPRIDX"; "SPKRIDX"; "STIMDUR"; "REW"; "REW_DUR";
   "IRI"; "TO"; "ITI"; "RWIN"; "MRT";
   "TOE"]%string.

(** The initial contents of [param_values]. *)
Definition param_values_init : list Z :=
  [0; 0; 2000; 0; 50;
   500; 6000; 3000; 45000; 1;
   1].

Definition param_report_ET : list bool :=
  [true; true; true; true; false;
   false; false; false; false; false;
   false].

Definition results_abbrevs : list string := ["RESP"; "OUTC"]%string.
Definition results_values_init : list Z := [0; 0].
(** [default_results_values]: an array the sketch never assigns. *)
Definition default_results_values : list Z := [0; 0].

Definition devIndices : list nat := [tpidx_STPRIDX; tpidx_SPKRIDX].

(** What the sketch writes to the serial line, the pins and the devices. *)
Inductive Output : Type :=
| Serial_TRL_RELEASED (time : Z)
| Serial_TRL_START (time : Z)
| Serial_TRLP (time : Z) (abbrev : string) (value : Z)
| Serial_TRLR (time : Z) (abbrev : string) (value : Z)
| Serial_LCK (time : Z)
| Serial_EV_R_L (time : Z)
| Serial_ST_CHG (time : Z) (current next : STATE_TYPE)
| Serial_ST_CHG2 (time : Z) (current next : STATE_TYPE)
| Serial_ERR_param_not_found (argument1 : string)
| Serial_ERR_cant_set_var
| Serial_ERR_SIC_cannot_parse (string_data : string)
| digitalWrite_SOLENOID_PIN (high : bool)
| delay (ms : Z)
| Device_loop (i : nat) (fcn : Z)
| Device_s_finish (i : nat).

(** What the chat library hands to the sketch on one pass. *)
Inductive ChatMsg : Type :=
| RELEASE_TRL
| Command (protocol_cmd argument1 argument2 : string).

(** What one pass of [loop] reads from outside: the clock, the serial
    line, the lick detector (read at three places) and the random
    generator. *)
Record TickInput : Type := mkTickInput {
  millis_loop : Z;        (* millis() at the top of loop() *)
  chat : option ChatMsg;  (* the message communications() receives *)
  aIn_loop : Z;           (* analogRead in checkLicks(), from loop() *)
  aIn_update : Z;         (* analogRead in checkLicks(), from update() *)
  aIn_window : Z;         (* analogRead in set_licking_variables() *)
  random_draw : Z;        (* random(0, 10000) *)
  millis_stim : Z;        (* millis() in StimPeriod::loop *)
  millis_chg : Z          (* millis() for ST_CHG2 *)
}.

(** The globals of States.cpp and of the sketch. *)
Record Globals : Type := mkGlobals {
  param_values : list Z;
  results_values : list Z;
  next_state : STATE_TYPE;
  flag_start_trial : bool;
  sticky_licking : bool;
  input : TickInput;
  output : list Output
}.

Definition set_param_values (x : list Z) (g : Globals) : Globals :=
  mkGlobals x (results_values g) (next_state g) (flag_start_trial g)
    (sticky_licking g) (input g) (output g).

Definition set_results_values (x : list Z) (g : Globals) : Globals :=
  mkGlobals (param_values g) x (next_state g) (flag_start_trial g)
    (sticky_licking g) (input g) (output g).

Definition set_next_state (x : STATE_TYPE) (g : Globals) : Globals :=
  mkGlobals (param_values g) (results_values g) x (flag_start_trial g)
    (sticky_licking g) (input g) (output g).

Definition set_flag_start_trial (x : bool) (g : Globals) : Globals :=
  mkGlobals (param_values g) (results_values g) (next_state g) x
    (sticky_licking g) (input g) (output g).

Definition set_sticky_licking (x : bool) (g : Globals) : Globals :=
  mkGlobals (param_values g) (results_values g) (next_state g)
    (flag_start_trial g) x (input g) (output g).

Definition set_input (x : TickInput) (g : Globals) : Globals :=
  mkGlobals (param_values g) (results_values g) (next_state g)
    (flag_start_trial g) (sticky_licking g) x (output g).

Definition emit (o : Output) (g : Globals) : Globals :=
  mkGlobals (param_values g) (results_values g) (next_state g)
    (flag_start_trial g) (sticky_licking g) (input g) (output g ++ [o]).

(** [a[i] = v] on an array held as a list. *)
Fixpoint upd {A : Type} (i : nat) (v : A) (a : list A) : list A :=
  match a, i with
  | [], _ => []
  | _ :: t, O => v :: t
  | h :: t, S j => h :: upd j v t
  end.

(** [param_values[i]] and [results_values[i]]. *)
Definition param (i : nat) (g : Globals) : Z := nth i (param_values g) 0.
Definition result (i : nat) (g : Globals) : Z := nth i (results_values g) 0.
Definition set_result (i : nat) (v : Z) (g : Globals) : Globals :=
  set_results_values (upd i v (results_values g)) g.

(** [boolean checkLicks()], on the value [analogRead] returned. *)
Definition checkLicks (aIn : Z) : bool := lickThresh <? aIn.

(** *** StimPeriod *)

Record StimPeriod_members : Type := mkStimPeriod {
  licked : Z;
  devFcns : list Z
}.

Definition StimPeriod := TimedState StimPeriod_members.

Definition StimPeriod_s_setup : method StimPeriod_members Globals :=
  fun this g =>
    let this := set_duration (ulong (param tpidx_REW_DUR g)) this in
    let this := set_ext (mkStimPeriod 0 (devFcns (ext this))) this in
    let fcns :=
      fold_left (fun fc i => upd i (param (nth i devIndices O) g) fc)
                (seq 0 NUM_DEVICES) (devFcns (ext this)) in
    (set_ext (mkStimPeriod (licked (ext this)) fcns) this, g).

Definition StimPeriod_loop : method StimPeriod_members Globals :=
  fun this g =>
    let time := millis_stim (input g) in
    let g :=
      fold_left (fun g i => emit (Device_loop i (nth i (devFcns (ext this)) 0)) g)
                (seq 0 NUM_DEVICES) g in
    (* on rewarded trials, make reward coterminous with stimulus *)
    if (param tpidx_REW g =? 1)
       && (ulong (timer this - time) <? ulong (param tpidx_REW_DUR g))
    then (this, emit (digitalWrite_SOLENOID_PIN true) g)
    else (this, g).

Definition StimPeriod_s_finish : method StimPeriod_members Globals :=
  fun this g =>
    let g := fold_left (fun g i => emit (Device_s_finish i) g) (seq 0 NUM_DEVICES) g in
    let g := emit (digitalWrite_SOLENOID_PIN false) g in
    (* if the mouse licked during the stimulus period, transition to timeout *)
    if licked (ext this) =? 1 then (this, set_next_state ERROR g)
    (* if not, transition to response window *)
    else (this, set_next_state RESPONSE_WINDOW g).

Definition StimPeriod_vtable : vtable StimPeriod_members Globals :=
  {| s_setup := StimPeriod_s_setup;
     loop := StimPeriod_loop;
     s_finish := StimPeriod_s_finish;
     update := nothing |}.

(** *** StateResponseWindow and StateFakeResponseWindow *)

Record StateResponseWindow_members : Type := mkStateResponseWindow {
  my_licking : bool;
  my_rewards_this_trial : Z      (* unsigned int *)
}.

Definition StateResponseWindow := TimedState StateResponseWindow_members.

Definition StateResponseWindow_update : method StateResponseWindow_members Globals :=
  fun this g =>
    (set_ext (mkStateResponseWindow (checkLicks (aIn_update (input g)))
                (my_rewards_this_trial (ext this))) this, g).

Definition StateResponseWindow_s_setup : method StateResponseWindow_members Globals :=
  fun this g => (set_duration (ulong (param tpidx_RESP_WIN_DUR g)) this, g).

Definition StateResponseWindow_set_licking_variables (g : Globals) : bool :=
  let aIn := aIn_window (input g) in
  if lickThresh <? aIn then true else false.

Definition StateFakeResponseWindow_set_licking_variables (g : Globals) : bool :=
  random_draw (input g) <? 3.

Section ResponseWindow.

Variable K : Codes.
(** The virtual [set_licking_variables] of the class. *)
Variable set_licking_variables : Globals -> bool.

Definition StateResponseWindow_loop : method StateResponseWindow_members Globals :=
  fun this g =>
    (* get the licking state *)
    let licking := set_licking_variables g in
    (* transition if max rewards reached *)
    if param tpidx_MRT g <=? my_rewards_this_trial (ext this) then
      (set_flag_stop true this, set_next_state INTER_TRIAL_INTERVAL g)
    else if negb licking then (this, g)
    else
      let current_response := GO K in
      (* Only assign result if this is the first response *)
      let g := if result tridx_RESPONSE g =? 0
               then set_result tridx_RESPONSE current_response g else g in
      (* Move to reward state, or error if TOE is set, or otherwise stay *)
      if (current_response =? GO K) && (param tpidx_REW g =? GO K) then
        (* Hit *)
        let g := set_next_state REWARD g in
        let this :=
          set_ext (mkStateResponseWindow (my_licking (ext this))
                     (uint (my_rewards_this_trial (ext this) + 1))) this in
        (this, set_result tridx_OUTCOME (OUTCOME_HIT K) g)
      else if param tpidx_TERMINATE_ON_ERR g =? __TRIAL_SPEAK_NO K then
        (* Error made, TOE is false *)
        (this, g)
      else
        (* Error made, TOE is true *)
        let g := set_result tridx_OUTCOME (OUTCOME_FA K) g in
        (this, set_next_state ERROR g).

Definition StateResponseWindow_s_finish : method StateResponseWindow_members Globals :=
  fun this g =>
    (* If response is still not set, mark as a nogo response *)
    if result tridx_RESPONSE g =? 0 then
      let g := set_result tridx_RESPONSE (NOGO K) g in
      (* Outcome depends on what he was supposed to do *)
      let g := if param tpidx_REW g =? NOGO K
               then set_result tridx_OUTCOME (OUTCOME_CR K) g
               else set_result tridx_OUTCOME (OUTCOME_MISS K) g in
      (* the assignment stands inside the braces of the [if] *)
      (this, set_next_state INTER_TRIAL_INTERVAL g)
    else (this, g).

Definition ResponseWindow_vtable : vtable StateResponseWindow_members Globals :=
  {| s_setup := StateResponseWindow_s_setup;
     loop := StateResponseWindow_loop;
     s_finish := StateResponseWindow_s_finish;
     update := StateResponseWindow_update |}.

End ResponseWindow.

Definition StateResponseWindow_vtable (K : Codes) :=
  ResponseWindow_vtable K StateResponseWindow_set_licking_variables.

Definition StateFakeResponseWindow_vtable (K : Codes) :=
  ResponseWindow_vtable K StateFakeResponseWindow_set_licking_variables.

(** *** StateInterTrialInterval, StatePostRewardPause, StateErrorTimeout *)

Definition StateInterTrialInterval_s_setup : method unit Globals :=
  fun this g =>
    let this := set_duration (ulong (param tpidx_ITI g)) this in
    (* First-time code: Report results *)
    let g :=
      fold_left (fun g i => emit (Serial_TRLR (time_of_last_call this)
                                    (nth i results_abbrevs ""%string) (result i g)) g)
                (seq 0 N_TRIAL_RESULTS) g in
    (this, g).

Definition StateInterTrialInterval_s_finish : method unit Globals :=
  fun this g => (this, set_next_state WAIT_TO_START_TRIAL g).

Definition StateInterTrialInterval_vtable : vtable unit Globals :=
  {| s_setup := StateInterTrialInterval_s_setup;
     loop := nothing;
     s_finish := StateInterTrialInterval_s_finish;
     update := nothing |}.

Definition StatePostRewardPause_s_finish : method unit Globals :=
  fun this g => (this, set_next_state RESPONSE_WINDOW g).

Definition StatePostRewardPause_vtable : vtable unit Globals :=
  {| s_setup := nothing;
     loop := nothing;
     s_finish := StatePostRewardPause_s_finish;
     update := nothing |}.

Definition StateErrorTimeout_s_finish : method unit Globals :=
  fun this g => (this, set_next_state INTER_TRIAL_INTERVAL g).

Definition StateErrorTimeout_s_setup : method unit Globals :=
  fun this g => (set_duration (ulong (param tpidx_ERROR_TIMEOUT g)) this, g).

Definition StateErrorTimeout_vtable : vtable unit Globals :=
  {| s_setup := StateErrorTimeout_s_setup;
     loop := nothing;
     s_finish := StateErrorTimeout_s_finish;
     update := nothing |}.

(** *** The state that is a plain function *)

Definition state_reward (g : Globals) : Globals :=
  let g := emit (digitalWrite_SOLENOID_PIN true) g in
  let g := emit (delay (ulong (param tpidx_REW_DUR g))) g in
  let g := emit (digitalWrite_SOLENOID_PIN false) g in
  set_next_state POST_REWARD_PAUSE g.

(** Modelled from the spec: TimedState.h is not among the sources.  A
    state as its constructor [TimedState(d)] leaves it is inactive (the
    deadline at the sentinel 0, the flag clear) and has the duration [d]. *)
Definition constructed {X : Type} (d : Z) (x : X) : TimedState X :=
  mkTimedState 0 0 (ulong d) false x.

End States.

(* ================================================================== *)
(** ** Reading a decimal integer: [sscanf] with [%ld], and [String::toInt] *)

Module Scan.
Import CTypes.

Definition isspace (c : ascii) : bool :=
  let n := nat_of_ascii c in
  ((n =? 32) || ((9 <=? n) && (n <=? 13)))%nat.

Definition isdigit (c : ascii) : bool :=
  let n := nat_of_ascii c in ((48 <=? n) && (n <=? 57))%nat.

Definition digit_value (c : ascii) : Z := Z.of_nat (nat_of_ascii c) - 48.

Fixpoint skip_space (s : string) : string :=
  match s with
  | String c r => if isspace c then skip_space r else s
  | EmptyString => s
  end.

(** The value of the longest run of digits at the front of [s]. *)
Fixpoint digits (acc : Z) (s : string) : Z :=
  match s with
  | String c r => if isdigit c then digits (10 * acc + digit_value c) r else acc
  | EmptyString => acc
  end.

(** The integer at the front of [s], after optional blanks and an optional
    sign; [None] when no digit stands there.  A value that does not fit a
    [long] is reduced to 32 bits (the C standard leaves that case open). *)
Definition scan_long (s : string) : option Z :=
  let s := skip_space s in
  let '(negative, s) :=
    match s with
    | String "-"%char r => (true, r)
    | String "+"%char r => (false, r)
    | _ => (false, s)
    end in
  match s with
  | String c _ =>
      if isdigit c
      then Some (long (if negative then - digits 0 s else digits 0 s))
      else None
  | EmptyString => None
  end.

(** [sscanf(string_data, "%ld", &conversion_var)]: the number of items
    converted (or EOF, -1, on an empty input) and the variable after it. *)
Definition sscanf_ld (string_data : string) (conversion_var : Z) : Z * Z :=
  match scan_long string_data with
  | Some n => (1, n)
  | None =>
      match skip_space string_data with
      | EmptyString => (-1, conversion_var)
      | String _ _ => (0, conversion_var)
      end
  end.

(** [String::toInt()], that is [atol]: 0 when nothing converts. *)
Definition toInt (string_data : string) : Z :=
  match scan_long string_data with
  | Some n => n
  | None => 0
  end.

End Scan.

(* ================================================================== *)
(** ** The MultiSens sketch *)

Module Sketch.
Import CTypes TimedStateLib States Scan.

(* Make this true to generate random responses for debugging *)
Definition FAKE_RESPONDER : bool := false.

(** [int safe_int_convert(char *string_data, long &variable)], where
    [variable] is [param_values[idx]]. *)
Definition safe_int_convert (string_data : string) (idx : nat) (g : Globals)
  : Z * Globals :=
  let conversion_var := 0 in
  (* Returns number of arguments successfully parsed *)
  let '(status, conversion_var) := sscanf_ld string_data conversion_var in
  if status =? 1 then
    (* Good, we converted one variable *)
    (0, set_param_values (upd idx conversion_var (param_values g)) g)
  else
    (* Something went wrong, probably no variables converted *)
    (1, emit (Serial_ERR_SIC_cannot_parse string_data) g).

(** The index of the first entry of [param_abbrevs] equal to [argument1];
    [None] for the -1 of the sketch. *)
Fixpoint find_param (abbrevs : list string) (argument1 : string) (i : nat)
  : option nat :=
  match abbrevs with
  | [] => None
  | a :: rest =>
      if String.eqb a argument1 then Some i else find_param rest argument1 (S i)
  end.

(** [int take_action(char *protocol_cmd, char *argument1, char *argument2)] *)
Definition take_action (protocol_cmd argument1 argument2 : string) (g : Globals)
  : Z * Globals :=
  if String.eqb protocol_cmd "SET" then
    (* Find index into param_abbrevs *)
    match find_param (firstn N_TRIAL_PARAMS param_abbrevs) argument1 O with
    | None =>
        (* Error if not found *)
        (4, emit (Serial_ERR_param_not_found argument1) g)
    | Some idx =>
        (* Convert to int *)
        let '(status, g) := safe_int_convert argument2 idx g in
        if negb (status =? 0)
        then (5, emit Serial_ERR_cant_set_var g)
        else (0, g)
    end
  else if String.eqb protocol_cmd "ACT" then
    (* Dispatch *)
    (6, g)
  else
    (* unknown command *)
    (2, g).

(** Modelled from the spec: [communications] belongs to the chat library,
    which is not among the sources.  It polls the command channel once: a
    SET command goes to [take_action], the release message sets the flag
    that WAIT_TO_START_TRIAL polls, and nothing pending changes nothing. *)
Definition communications (time : Z) (g : Globals) : Z * Globals :=
  match chat (input g) with
  | None => (0, g)
  | Some RELEASE_TRL => (0, set_flag_start_trial true g)
  | Some (Command protocol_cmd argument1 argument2) =>
      take_action protocol_cmd argument1 argument2 g
  end.

(** The globals, the static [current_state] of [loop] and the state
    objects. *)
Record World : Type := mkWorld {
  globals : Globals;
  current_state : STATE_TYPE;
  stim_period : StimPeriod;
  srw : StateResponseWindow;
  sfrw : StateResponseWindow;
  state_inter_trial_interval : TimedState unit;
  state_error_timeout : TimedState unit;
  state_post_reward_pause : TimedState unit
}.

Definition set_globals (x : Globals) (w : World) : World :=
  mkWorld x (current_state w) (stim_period w) (srw w) (sfrw w)
    (state_inter_trial_interval w) (state_error_timeout w)
    (state_post_reward_pause w).

Definition set_current_state (x : STATE_TYPE) (w : World) : World :=
  mkWorld (globals w) x (stim_period w) (srw w) (sfrw w)
    (state_inter_trial_interval w) (state_error_timeout w)
    (state_post_reward_pause w).

Definition set_stim_period (x : StimPeriod) (w : World) : World :=
  mkWorld (globals w) (current_state w) x (srw w) (sfrw w)
    (state_inter_trial_interval w) (state_error_timeout w)
    (state_post_reward_pause w).

Definition set_srw (x : StateResponseWindow) (w : World) : World :=
  mkWorld (globals w) (current_state w) (stim_period w) x (sfrw w)
    (state_inter_trial_interval w) (state_error_timeout w)
    (state_post_reward_pause w).

Definition set_sfrw (x : StateResponseWindow) (w : World) : World :=
  mkWorld (globals w) (current_state w) (stim_period w) (srw w) x
    (state_inter_trial_interval w) (state_error_timeout w)
    (state_post_reward_pause w).

Definition set_state_inter_trial_interval (x : TimedState unit) (w : World) : World :=
  mkWorld (globals w) (current_state w) (stim_period w) (srw w) (sfrw w)
    x (state_error_timeout w) (state_post_reward_pause w).

Definition set_state_error_timeout (x : TimedState unit) (w : World) : World :=
  mkWorld (globals w) (current_state w) (stim_period w) (srw w) (sfrw w)
    (state_inter_trial_interval w) x (state_post_reward_pause w).

Definition set_state_post_reward_pause (x : TimedState unit) (w : World) : World :=
  mkWorld (globals w) (current_state w) (stim_period w) (srw w) (sfrw w)
    (state_inter_trial_interval w) (state_error_timeout w) x.

(** The TRIAL_START case of [loop]: report, then reset the results. *)
Definition trial_start (time : Z) (g : Globals) : Globals :=
  (* Set up the trial based on received trial parameters *)
  let g := emit (Serial_TRL_START time) g in
  let g :=
    fold_left (fun g i =>
                 if nth i param_report_ET false
                 then emit (Serial_TRLP time (nth i param_abbrevs ""%string) (param i g)) g
                 else g)
              (seq 0 N_TRIAL_PARAMS) g in
  (* Set up trial_results to defaults *)
  let g :=
    fold_left (fun g i => set_result i (nth i default_results_values 0) g)
              (seq 0 N_TRIAL_RESULTS) g in
  set_next_state STIM_PERIOD g.

(** [loop], first part: what every pass does before it looks at the
    state.  The globals it returns are those the state-dependent part
    starts from. *)
Definition loop_every_pass (inp : TickInput) (w : World) : Globals :=
  (* get the current time as early as possible in this function *)
  let time := millis_loop inp in
  let g := set_input inp (globals w) in
  (* The next state, by default the same as the current state *)
  let g := set_next_state (current_state w) g in
  (* Run communications *)
  let '(status, g) := communications time g in
  (* Poll touch inputs *)
  let licking := checkLicks (aIn_loop inp) in
  (* announce sticky *)
  if Bool.eqb licking (sticky_licking g) then g
  else set_sticky_licking licking (emit (Serial_LCK time) g).

(** [loop], second part: the [switch (current_state)]. *)
Definition loop_state_dependent (K : Codes) (time : Z) (g : Globals) (w : World)
  : World :=
  match current_state w with
  | WAIT_TO_START_TRIAL =>
      (* Wait until we receive permission to continue *)
      if flag_start_trial g then
        (* Announce that we have ended the trial and reset the flag *)
        let g := emit (Serial_TRL_RELEASED time) g in
        let g := set_flag_start_trial false g in
        (* Proceed to next trial *)
        set_globals (set_next_state TRIAL_START g) w
      else set_globals g w
  | TRIAL_START => set_globals (trial_start time g) w
  | STIM_PERIOD =>
      let r := run StimPeriod_vtable time (stim_period w) g in
      set_globals (glob r) (set_stim_period (obj r) w)
  | RESPONSE_WINDOW =>
      if FAKE_RESPONDER then
        let '(this, g) := update (StateFakeResponseWindow_vtable K) (sfrw w) g in
        let r := run (StateFakeResponseWindow_vtable K) time this g in
        set_globals (glob r) (set_sfrw (obj r) w)
      else
        let '(this, g) := update (StateResponseWindow_vtable K) (srw w) g in
        let r := run (StateResponseWindow_vtable K) time this g in
        set_globals (glob r) (set_srw (obj r) w)
  | REWARD =>
      let g := emit (Serial_EV_R_L time) g in
      set_globals (state_reward g) w
  | POST_REWARD_PAUSE =>
      let r := run StatePostRewardPause_vtable time (state_post_reward_pause w) g in
      set_globals (glob r) (set_state_post_reward_pause (obj r) w)
  | ERROR =>
      let r := run StateErrorTimeout_vtable time (state_error_timeout w) g in
      set_globals (glob r) (set_state_error_timeout (obj r) w)
  | INTER_TRIAL_INTERVAL =>
      let r := run StateInterTrialInterval_vtable time (state_inter_trial_interval w) g in
      set_globals (glob r) (set_state_inter_trial_interval (obj r) w)
  end.

(** [loop], last part: announce a change of state and commit it. *)
Definition loop_update_state (inp : TickInput) (w : World) : World :=
  let time := millis_loop inp in
  let g := globals w in
  let g :=
    if STATE_TYPE_eqb (next_state g) (current_state w) then g
    else
      let g := emit (Serial_ST_CHG time (current_state w) (next_state g)) g in
      emit (Serial_ST_CHG2 (millis_chg inp) (current_state w) (next_state g)) g in
  set_current_state (next_state g) (set_globals g w).

(** [void loop()]: one pass, reading [inp] from outside. *)
Definition loop (K : Codes) (inp : TickInput) (w : World) : World :=
  let g := loop_every_pass inp w in
  let w := loop_state_dependent K (millis_loop inp) g w in
  loop_update_state inp w.

(** Successive passes of [loop]. *)
Definition passes (K : Codes) (inps : list TickInput) (w : World) : World :=
  fold_left (fun w inp => loop K inp w) inps w.

(** A pass on which nothing is pending on the serial line: the clock
    reads [time] and the lick detector reads [aIn] wherever it is read. *)
Definition quiet (time aIn : Z) : TickInput :=
  {| millis_loop := time; chat := None;
     aIn_loop := aIn; aIn_update := aIn; aIn_window := aIn;
     random_draw := 5000; millis_stim := time; millis_chg := time |}.

(** The sketch as its static initialisers leave it. *)
Definition initial_globals : Globals :=
  {| param_values := param_values_init;
     results_values := results_values_init;
     next_state := WAIT_TO_START_TRIAL;
     flag_start_trial := false;
     sticky_licking := false;
     input := quiet 0 0;
     output := [] |}.

Definition initial_world : World :=
  {| globals := initial_globals;
     current_state := WAIT_TO_START_TRIAL;
     stim_period :=
       constructed (param tpidx_STIM_DUR initial_globals) (mkStimPeriod 0 [0; 0]);
     srw :=
       constructed (param tpidx_RESP_WIN_DUR initial_globals)
                   (mkStateResponseWindow false 0);
     sfrw :=
       constructed (param tpidx_RESP_WIN_DUR initial_globals)
                   (mkStateResponseWindow false 0);
     state_inter_trial_interval := constructed (param tpidx_ITI initial_globals) tt;
     state_error_timeout := constructed (param tpidx_ERROR_TIMEOUT initial_globals) tt;
     state_post_reward_pause :=
       constructed (param tpidx_INTER_REWARD_INTERVAL initial_globals) tt |}.

End Sketch.

(* ================================================================== *)
(** ** The older sketch with the single parameter ITI *)

Module SimpleSketch.
Import CTypes Scan.

(** The one field of [trial_params] the sketch uses. *)
Record TRIAL_PARAMS_TYPE : Type := mkTrialParams {
  inter_trial_interval : Z      (* unsigned long *)
}.

(** [int safe_int_convert(String string_data, long unsigned int &variable)] *)
Definition safe_int_convert (string_data : string) (variable : Z) : Z * Z :=
  let conversion_var := int (toInt string_data) in
  if conversion_var =? 0 then (1, variable)
  else (0, ulong conversion_var).

(** [int take_action(String protocol_cmd, String argument1, String argument2)] *)
Definition take_action (protocol_cmd argument1 argument2 : string)
  (trial_params : TRIAL_PARAMS_TYPE) : Z * TRIAL_PARAMS_TYPE :=
  if String.eqb protocol_cmd "SET" then
    if String.eqb argument1 "ITI" then
      (* convert to Int, check for parse error (that is, zero), set ITI *)
      let '(status, variable) :=
        safe_int_convert argument2 (inter_trial_interval trial_params) in
      let trial_params := mkTrialParams variable in
      if negb (status =? 0) then (5, trial_params)
      else (0, trial_params)
    else
      (* unknown variable *)
      (4, trial_params)
  else
    (* unknown command *)
    (2, trial_params).

End SimpleSketch.


(* ================================================================== *)
(** ** The older sketch: [loop] *)

Module SimpleLoop.
Import CTypes Scan SimpleSketch.

(** The states of the older sketch. *)
Inductive STATE_TYPE : Set :=
| TRIAL_START
| INTER_TRIAL_INTERVAL
| WAIT_FOR_NEXT_TRIAL.

Definition STATE_TYPE_eqb (a b : STATE_TYPE) : bool :=
  match a, b with
  | TRIAL_START, TRIAL_START
  | INTER_TRIAL_INTERVAL, INTER_TRIAL_INTERVAL
  | WAIT_FOR_NEXT_TRIAL, WAIT_FOR_NEXT_TRIAL => true
  | _, _ => false
  end.

(** The lines [loop] writes to the serial line. *)
Inductive Output : Type :=
| Serial_DBG (time : Z)
| Serial_DBG_RC_ERR (time status : Z)
| Serial_DBG_TA_ERR (time status : Z)
| Serial_TRL_START (time : Z)
| Serial_TRLP_ITI (time inter_trial_interval : Z)
| Serial_TRL_RELEASED (time : Z)
| Serial_ST_CHG (time : Z) (current next : STATE_TYPE).

(** [unsigned long state_timer = -1]: the value that stands for "not
    running". *)
Definition NO_TIMER : Z := ulong (-1).

(** [unsigned long interval = 1000], never assigned. *)
Definition interval : Z := 1000.

(** The globals of the sketch. *)
Record Sketch : Type := mkSketch {
  current_state : STATE_TYPE;
  trial_params : TRIAL_PARAMS_TYPE;
  speak_at : Z;                   (* unsigned long *)
  flag_start_next_trial : bool;
  state_timer : Z;                (* unsigned long *)
  output : list Output
}.

Definition set_current_state (x : STATE_TYPE) (s : Sketch) : Sketch :=
  mkSketch x (trial_params s) (speak_at s) (flag_start_next_trial s)
    (state_timer s) (output s).

Definition set_trial_params (x : TRIAL_PARAMS_TYPE) (s : Sketch) : Sketch :=
  mkSketch (current_state s) x (speak_at s) (flag_start_next_trial s)
    (state_timer s) (output s).

Definition set_speak_at (x : Z) (s : Sketch) : Sketch :=
  mkSketch (current_state s) (trial_params s) x (flag_start_next_trial s)
    (state_timer s) (output s).

Definition set_flag_start_next_trial (x : bool) (s : Sketch) : Sketch :=
  mkSketch (current_state s) (trial_params s) (speak_at s) x
    (state_timer s) (output s).

Definition set_state_timer (x : Z) (s : Sketch) : Sketch :=
  mkSketch (current_state s) (trial_params s) (speak_at s)
    (flag_start_next_trial s) x (output s).

Definition emit (o : Output) (s : Sketch) : Sketch :=
  mkSketch (current_state s) (trial_params s) (speak_at s)
    (flag_start_next_trial s) (state_timer s) (output s ++ [o]).

(** The sketch as its initialisers leave it. *)
Definition initial (trial_params : TRIAL_PARAMS_TYPE) : Sketch :=
  {| current_state := TRIAL_START;
     trial_params := trial_params;
     speak_at := 1000;
     flag_start_next_trial := false;
     state_timer := NO_TIMER;
     output := [] |}.

Section Loop.

(** [handle_chat] belongs to the chat library, which is not among the
    sources: it is a parameter.  It receives the line and, by reference,
    the trial parameters, the flag and the three strings of the command;
    it returns its status and what it left in them. *)
Variable handle_chat :
  string -> TRIAL_PARAMS_TYPE -> bool ->
  Z * TRIAL_PARAMS_TYPE * bool * (string * string * string).

(** [loop], the part that deals with the line [receive_chat()] returned. *)
Definition loop_chat (time : Z) (received_chat : string) (s : Sketch) : Sketch :=
  if (0 <? String.length received_chat)%nat then
    (* Attempt to parse *)
    let '(status, params, flag, (protocol_cmd, argument1, argument2)) :=
      handle_chat received_chat (trial_params s) (flag_start_next_trial s) in
    let s := set_flag_start_next_trial flag (set_trial_params params s) in
    if negb (status =? 0) then
      (* Parse/syntax error *)
      emit (Serial_DBG_RC_ERR time status) s
    else if (0 <? String.length protocol_cmd)%nat then
      (* Protocol action required *)
      let '(status, params) :=
        take_action protocol_cmd argument1 argument2 (trial_params s) in
      let s := set_trial_params params s in
      if negb (status =? 0) then emit (Serial_DBG_TA_ERR time status) s else s
    else s
  else s.

(** [loop], the [switch (current_state)]: the next state and the globals. *)
Definition loop_state_dependent (time : Z) (s : Sketch) : STATE_TYPE * Sketch :=
  (* The next state, by default the same as the current state *)
  let next_state := current_state s in
  match current_state s with
  | TRIAL_START =>
      (* Set up the trial based on received trial parameters *)
      let s := emit (Serial_TRL_START time) s in
      let s := emit (Serial_TRLP_ITI time (inter_trial_interval (trial_params s))) s in
      (INTER_TRIAL_INTERVAL, s)
  | INTER_TRIAL_INTERVAL =>
      (* Wait the specified amount of time *)
      let s := if state_timer s =? ulong (-1)
               then set_state_timer
                      (ulong (time + inter_trial_interval (trial_params s))) s
               else s in
      if state_timer s <? time
      then (WAIT_FOR_NEXT_TRIAL, set_state_timer (ulong (-1)) s)
      else (next_state, s)
  | WAIT_FOR_NEXT_TRIAL =>
      (* Wait until we receive permission to continue *)
      if flag_start_next_trial s then
        (* Announce that we have ended the trial and reset the flag *)
        let s := emit (Serial_TRL_RELEASED time) s in
        let s := set_flag_start_next_trial false s in
        (* Proceed to next trial *)
        (TRIAL_START, s)
      else (next_state, s)
  end.

(** [void loop()]: one pass, with the clock at [time] and
    [receive_chat()] returning [received_chat]. *)
Definition loop (time : Z) (received_chat : string) (s : Sketch) : Sketch :=
  (* Announce the time *)
  let s := if speak_at s <=? time
           then set_speak_at (ulong (speak_at s + interval))
                  (emit (Serial_DBG time) s)
           else s in
  (* Receive and deal with chat *)
  let s := loop_chat time received_chat s in
  (* Begin state-dependent operations *)
  let '(next_state, s) := loop_state_dependent time s in
  (* Update the state variable *)
  let s := if STATE_TYPE_eqb next_state (current_state s) then s
           else emit (Serial_ST_CHG time (current_state s) next_state) s in
  set_current_state next_state s.

(** Successive passes on which no line has arrived. *)
Definition quiet_passes (times : list Z) (s : Sketch) : Sketch :=
  fold_left (fun s time => loop time ""%string s) times s.

End Loop.

End SimpleLoop.

(* ================================================================== *)
(** ** The vocabulary of the properties, and the trials they are tried on *)

Module Vocabulary.
Import CTypes TimedStateLib States Scan Sketch.

(** A member function that neither sets the stop flag nor writes
    [next_state]. *)
Definition leaves_flag_and_next_state {X : Type} (m : method X Globals) : Prop :=
  forall this g,
    flag_stop (fst (m this g)) = flag_stop this /\
    next_state (snd (m this g)) = next_state g.

(** A class whose [s_setup] and [update] are such functions. *)
Definition only_loop_and_finish_write {X : Type} (v : vtable X Globals) : Prop :=
  leaves_flag_and_next_state (s_setup v) /\ leaves_flag_and_next_state (update v).

(** A recorded response stays as it is. *)
Definition keeps_response (g g' : Globals) : Prop :=
  result tridx_RESPONSE g <> 0 ->
  result tridx_RESPONSE g' = result tridx_RESPONSE g.

(** The result table keeps its size. *)
Definition keeps_results_size (g g' : Globals) : Prop :=
  length (results_values g') = length (results_values g).

(** A member function whose effect on the globals stays within [R]. *)
Definition method_keeps {X : Type} (R : Globals -> Globals -> Prop)
  (m : method X Globals) : Prop :=
  forall this g, R g (snd (m this g)).

(** A class all of whose virtual functions do. *)
Definition class_keeps {X : Type} (R : Globals -> Globals -> Prop)
  (v : vtable X Globals) : Prop :=
  method_keeps R (s_setup v) /\
  method_keeps R (TimedStateLib.loop v) /\
  method_keeps R (s_finish v) /\
  method_keeps R (update v).

(** A pass on which the chat library hands over the message [m]. *)
Definition said (m : ChatMsg) (time : Z) : TickInput :=
  {| millis_loop := time; chat := Some m;
     aIn_loop := 0; aIn_update := 0; aIn_window := 0;
     random_draw := 5000; millis_stim := time; millis_chg := time |}.


(** The sketch waits for a trial; TOE is set to the code for "no", the
    trial is released, the stimulus period runs from 3 to 53 and the
    response window opens at 54. *)
Definition to_response_window_toe_false : list TickInput :=
  [said (Command "SET" "TOE" "2") 0; said RELEASE_TRL 1; quiet 2 0;
   quiet 3 0; quiet 53 0; quiet 54 0].

Definition world_in_response_window : World :=
  passes sample_codes to_response_window_toe_false initial_world.

(** The same trial after a lick at 60. *)
Definition world_after_lick : World :=
  Sketch.loop sample_codes (quiet 60 1023) world_in_response_window.

(** A whole trial with TOE left at 1: a lick at 60 in the response window
    of an unrewarded trial, the error timeout, the inter-trial interval,
    and the release of the next trial. *)
Definition false_alarm_trial : list TickInput :=
  [said RELEASE_TRL 1; quiet 2 0; quiet 3 0; quiet 53 0; quiet 54 0;
   quiet 60 1023; quiet 61 0; quiet 6061 0; quiet 6062 0; quiet 9062 0;
   said RELEASE_TRL 9063].

Definition world_at_second_trial_start : World :=
  passes sample_codes false_alarm_trial initial_world.

(** A trial whose stimulus period, from 3 to 53, is licked throughout. *)
Definition licked_stimulus_period : list TickInput :=
  [said RELEASE_TRL 1; quiet 2 0; quiet 3 1023; quiet 10 1023; quiet 53 1023].

(** A response window object after one reward, and globals for it. *)
Definition srw_after_reward : StateResponseWindow :=
  constructed 45000 (mkStateResponseWindow false 1).

Definition globals_in_response_window : Globals :=
  set_next_state RESPONSE_WINDOW initial_globals.

(** Claim C2 in the words of the specification, for the stop flag: the
    call of [run] on which the flag is set is the call that runs
    [s_finish]. *)
Definition finish_on_the_call_that_sets_flag {X G : Type} (v : vtable X G)
  (times : list Z) (this : TimedState X) (g : G) : Prop :=
  forall k r, nth_error (runs v times this g) k = Some r ->
    flag_stop (obj r) = true -> In Finish (trace r).

End Vocabulary.

(* ================================================================== *)
(** ** More vocabulary: edges of the state machines, whole activations *)

Module MoreVocabulary.
Import CTypes TimedStateLib States Scan Sketch Vocabulary.

(** The edges of the state machine of MultiSens, staying put included. *)
Definition edge (a b : STATE_TYPE) : bool :=
  match a, b with
  | WAIT_TO_START_TRIAL, (WAIT_TO_START_TRIAL | TRIAL_START)
  | TRIAL_START, STIM_PERIOD
  | STIM_PERIOD, (STIM_PERIOD | RESPONSE_WINDOW | ERROR)
  | RESPONSE_WINDOW, (RESPONSE_WINDOW | REWARD | ERROR | INTER_TRIAL_INTERVAL)
  | REWARD, POST_REWARD_PAUSE
  | POST_REWARD_PAUSE, (POST_REWARD_PAUSE | RESPONSE_WINDOW)
  | ERROR, (ERROR | INTER_TRIAL_INTERVAL)
  | INTER_TRIAL_INTERVAL, (INTER_TRIAL_INTERVAL | WAIT_TO_START_TRIAL) => true
  | _, _ => false
  end.

(** [next_state] is left alone or set to one of [targets]. *)
Definition moves_to (targets : list STATE_TYPE) (g g' : Globals) : Prop :=
  next_state g' = next_state g \/ In (next_state g') targets.

(** The parameter table is left alone. *)
Definition keeps_params (g g' : Globals) : Prop :=
  param_values g' = param_values g.

(** Nothing is written but, possibly, lines that do not open the valve. *)
Definition opens_valve (o : Output) : bool :=
  match o with
  | digitalWrite_SOLENOID_PIN true => true
  | _ => false
  end.

(** The object and the globals after successive calls of [run]. *)
Fixpoint after_runs {X G : Type} (v : vtable X G) (times : list Z)
  (this : TimedState X) (g : G) : TimedState X * G :=
  match times with
  | [] => (this, g)
  | t :: ts => after_runs v ts (obj (run v t this g)) (glob (run v t this g))
  end.

(** The edges of the state machine of the older sketch. *)
Definition simple_edge (a b : SimpleLoop.STATE_TYPE) : bool :=
  match a, b with
  | SimpleLoop.TRIAL_START, SimpleLoop.INTER_TRIAL_INTERVAL
  | SimpleLoop.INTER_TRIAL_INTERVAL,
    (SimpleLoop.INTER_TRIAL_INTERVAL | SimpleLoop.WAIT_FOR_NEXT_TRIAL)
  | SimpleLoop.WAIT_FOR_NEXT_TRIAL,
    (SimpleLoop.WAIT_FOR_NEXT_TRIAL | SimpleLoop.TRIAL_START) => true
  | _, _ => false
  end.

(** The timer of the older sketch runs in INTER_TRIAL_INTERVAL only. *)
Definition timer_idle (s : SimpleLoop.Sketch) : Prop :=
  SimpleLoop.current_state s <> SimpleLoop.INTER_TRIAL_INTERVAL ->
  SimpleLoop.state_timer s = SimpleLoop.NO_TIMER.

(** A [handle_chat] for closed examples: it reads "RELEASE" as the release
    of the next trial and hands every other line over as SET ITI with the
    line as value. *)
Definition sample_handle_chat (received_chat : string)
  (trial_params : SimpleSketch.TRIAL_PARAMS_TYPE) (flag : bool)
  : Z * SimpleSketch.TRIAL_PARAMS_TYPE * bool * (string * string * string) :=
  if String.eqb received_chat "RELEASE"
  then (0, trial_params, true, (""%string, ""%string, ""%string))
  else (0, trial_params, flag, ("SET"%string, "ITI"%string, received_chat)).

(** The release flag is left alone. *)
Definition keeps_flag (g g' : Globals) : Prop :=
  flag_start_trial g' = flag_start_trial g.

(** A rewarded trial with MRT at 1: REW is set to 1, the trial is
    released, the stimulus period runs from 3 to 53, the window opens at
    54, a lick at 60 is rewarded, and the post-reward pause, set up at 62,
    ends at 562. *)
Definition rewarded_trial : list TickInput :=
  [said (Command "SET" "REW" "1") 0; said RELEASE_TRL 1; quiet 2 0;
   quiet 3 0; quiet 53 0; quiet 54 0; quiet 60 1023; quiet 61 0;
   quiet 62 0; quiet 562 0].

(** Back in the response window, with one reward given. *)
Definition world_back_in_window : World :=
  passes sample_codes rewarded_trial initial_world.

(** The pass at 563 stops the window; the inter-trial interval from 564 to
    3564, the release of the next trial and its stimulus period from 3567
    to 3617 follow. *)
Definition to_the_next_window : list TickInput :=
  [quiet 563 0; quiet 564 0; quiet 3564 0; said RELEASE_TRL 3565;
   quiet 3566 0; quiet 3567 0; quiet 3617 0].

Definition world_at_the_next_window : World :=
  passes sample_codes to_the_next_window world_back_in_window.

(** The older sketch after its first pass, in INTER_TRIAL_INTERVAL. *)
Definition simple_in_interval : SimpleLoop.Sketch :=
  SimpleLoop.loop sample_handle_chat 0 ""
    (SimpleLoop.initial (SimpleSketch.mkTrialParams 3000)).

End MoreVocabulary.

(* ================================================================== *)
(** * Properties *)

Import CTypes TimedStateLib.

(** ** One call of [run] *)

Section EngineFacts.

Context {X G : Type}.
Variable v : vtable X G.

(** The two outcomes of a first call, in full. *)
Lemma run_inactive_eq (time : Z) (this : TimedState X) (g : G) :
  timer this = 0 ->
  let a := activated v time this g in
  (deadline v time this g <= time /\
   run v time this g
   = (set_timer 0 (fst (s_finish v (fst a) (snd a))),
      snd (s_finish v (fst a) (snd a)), [Setup; Finish])) \/
  (time < deadline v time this g /\
   run v time this g
   = (fst (TimedStateLib.loop v (fst a) (snd a)),
      snd (TimedStateLib.loop v (fst a) (snd a)), [Setup; Loop])).
Proof.
  intros H0 a. subst a. unfold run, deadline, activated.
  set (this0 := set_time_of_last_call time this).
  assert (Ht : timer this0 = 0) by exact H0.
  rewrite Ht. change (0 =? 0) with true. cbv iota.
  destruct (s_setup v this0 g) as [s1 g1].
  cbn [fst snd set_timer set_flag_stop timer flag_stop duration orb].
  destruct (ulong (time + duration s1) <=? time) eqn:Ec.
  - left. split; [lia|]. destruct (s_finish v _ g1) as [s2 g2]. reflexivity.
  - right. split; [lia|].
    destruct (TimedStateLib.loop v _ g1) as [s2 g2]. reflexivity.
Qed.

(** The two outcomes of a later call, in full. *)
Lemma run_active_eq (time : Z) (this : TimedState X) (g : G) :
  timer this <> 0 ->
  let this0 := set_time_of_last_call time this in
  ((flag_stop this = true \/ timer this <= time) /\
   run v time this g
   = (set_timer 0 (fst (s_finish v this0 g)), snd (s_finish v this0 g), [Finish])) \/
  (flag_stop this = false /\ time < timer this /\
   run v time this g
   = (fst (TimedStateLib.loop v this0 g), snd (TimedStateLib.loop v this0 g), [Loop])).
Proof.
  intros H0 this0. unfold run. fold this0.
  assert (Ht : timer this0 = timer this) by reflexivity.
  assert (Hf : flag_stop this0 = flag_stop this) by reflexivity.
  rewrite Ht. destruct (timer this =? 0) eqn:E0; [apply Z.eqb_eq in E0; contradiction|].
  cbv iota. rewrite Hf, Ht.
  destruct (flag_stop this) eqn:Ef; cbn [orb].
  - left. split; [left; reflexivity|]. destruct (s_finish v this0 g). reflexivity.
  - destruct (timer this <=? time) eqn:Ec.
    + left. split; [right; lia|]. destruct (s_finish v this0 g). reflexivity.
    + right. split; [reflexivity|]. split; [lia|].
      destruct (TimedStateLib.loop v this0 g). reflexivity.
Qed.

(** The first call of an activation: [s_setup], then [s_finish] when the
    deadline is not ahead, [loop] when it is. *)
Lemma run_inactive (time : Z) (this : TimedState X) (g : G) :
  timer this = 0 ->
  let r := run v time this g in
  (deadline v time this g <= time /\ trace r = [Setup; Finish] /\ timer (obj r) = 0) \/
  (time < deadline v time this g /\ trace r = [Setup; Loop] /\
   (loop_keeps_timer v -> timer (obj r) = deadline v time this g)).
Proof.
  intros H0 r. subst r.
  destruct (run_inactive_eq time this g H0) as [[Hc E] | [Hlt E]]; rewrite E.
  - left. repeat split. exact Hc.
  - right. repeat split; [exact Hlt|].
    intros Hk. cbn [obj fst]. rewrite Hk. reflexivity.
Qed.

(** A later call: [s_finish] when the flag is set or the deadline reached,
    [loop] otherwise. *)
Lemma run_active (time : Z) (this : TimedState X) (g : G) :
  timer this <> 0 ->
  let r := run v time this g in
  ((flag_stop this = true \/ timer this <= time) /\ trace r = [Finish] /\ timer (obj r) = 0) \/
  (flag_stop this = false /\ time < timer this /\ trace r = [Loop] /\
   (loop_keeps_timer v -> timer (obj r) = timer this)).
Proof.
  intros H0 r. subst r.
  destruct (run_active_eq time this g H0) as [[Hc E] | [Hf [Hlt E]]]; rewrite E.
  - left. repeat split. exact Hc.
  - right. repeat split; [exact Hf | exact Hlt |].
    intros Hk. cbn [obj fst]. rewrite Hk. reflexivity.
Qed.

End EngineFacts.

(* ================================================================== *)
(** ** The life cycle of a timed state *)

Section Lifecycle.

Context {X G : Type}.
Variable v : vtable X G.

Lemma lifecycle_flat (n : nat) :
  concat (lifecycle (S n)) = Setup :: repeat Loop n ++ [Finish].
Proof.
  destruct n as [|m]; [reflexivity|].
  cbn [lifecycle concat app repeat]. do 2 f_equal.
  induction m as [|m IH]; [reflexivity|].
  cbn [repeat app concat]. f_equal. exact IH.
Qed.

Lemma fires_head (t : Z) (ts : list Z) (this : TimedState X) (g : G) :
  fires v (t :: ts) this g O <-> In Finish (trace (run v t this g)).
Proof.
  unfold fires. cbn [runs nth_error]. split.
  - intros [r [E H]]. injection E as <-. exact H.
  - intros H. eexists. split; [reflexivity | exact H].
Qed.

Lemma fires_tail (t : Z) (ts : list Z) (this : TimedState X) (g : G) (k : nat) :
  fires v (t :: ts) this g (S k) <->
  fires v ts (obj (run v t this g)) (glob (run v t this g)) k.
Proof. unfold fires. cbn [runs nth_error]. reflexivity. Qed.

Lemma flag_before_tail (t : Z) (ts : list Z) (this : TimedState X) (g : G) (k : nat) :
  flag_before v (t :: ts) this g (S k) =
  flag_before v ts (obj (run v t this g)) (glob (run v t this g)) k.
Proof.
  destruct k as [|j]; cbn [flag_before runs nth_error]; reflexivity.
Qed.

(** Once active, the calls before the last one each run [loop] and the
    last one runs [s_finish]. *)
Lemma active_lifecycle (times : list Z) :
  loop_keeps_timer v ->
  forall (this : TimedState X) (g : G),
  timer this <> 0 ->
  times <> [] ->
  (forall k r, nth_error (runs v times this g) k = Some r ->
     (timer (obj r) = 0 <-> S k = length times)) ->
  map trace (runs v times this g) = repeat [Loop] (length times - 1) ++ [[Finish]].
Proof.
  intros Hk. induction times as [|t ts IH]; intros this g Ht Hne Hact; [congruence|].
  cbn [runs map length].
  pose proof (Hact O _ eq_refl) as H0. cbn [length] in H0.
  destruct (run_active v t this g Ht) as [[_ [Etr Et0]] | [_ [_ [Etr Hkeep]]]].
  - apply H0 in Et0. injection Et0 as El. symmetry in El.
    apply length_zero_iff_nil in El. subst ts.
    cbn. rewrite Etr. reflexivity.
  - specialize (Hkeep Hk).
    assert (Hts : ts <> []).
    { intros ->. cbn in H0. destruct H0 as [_ H0]. specialize (H0 eq_refl). congruence. }
    rewrite Etr. rewrite IH.
    + destruct ts as [|t' ts']; [congruence|]. cbn [length].
      replace (S (S (length ts')) - 1)%nat with (S (length ts')) by lia.
      replace (S (length ts') - 1)%nat with (length ts') by lia.
      reflexivity.
    + congruence.
    + exact Hts.
    + intros k r Hr. specialize (Hact (S k) r Hr). cbn [length] in Hact.
      split; intros H; [apply Hact in H; lia | apply Hact; lia].
Qed.

(** Once active, [s_finish] is called on the first call that finds the flag
    set or the deadline reached. *)
Lemma active_finish_rule (times : list Z) :
  loop_keeps_timer v ->
  forall (this : TimedState X) (g : G) (k : nat) (now : Z),
  timer this <> 0 ->
  nth_error times k = Some now ->
  (forall j, (j < k)%nat -> ~ fires v times this g j) ->
  (fires v times this g k <->
   timer this <= now \/ flag_before v times this g k = true).
Proof.
  intros Hk. induction times as [|t ts IH]; intros this g k now Ht Hnow Hnone.
  - destruct k; discriminate.
  - destruct k as [|k].
    + cbn in Hnow. injection Hnow as ->. rewrite fires_head. cbn [flag_before].
      destruct (run_active v now this g Ht) as [[Hc [Etr _]] | [Hf [Hlt [Etr _]]]];
        rewrite Etr.
      * split; [intros _; tauto | intros _; left; reflexivity].
      * split.
        -- intros [H|[]]; discriminate.
        -- intros [H|H]; [lia | congruence].
    + cbn [nth_error] in Hnow. rewrite fires_tail, flag_before_tail.
      assert (Hno0 : ~ In Finish (trace (run v t this g))).
      { rewrite <- fires_head with (ts := ts). apply Hnone. lia. }
      destruct (run_active v t this g Ht) as [[_ [Etr _]] | [_ [_ [_ Hkeep]]]].
      * exfalso. apply Hno0. rewrite Etr. left. reflexivity.
      * specialize (Hkeep Hk). rewrite <- Hkeep. apply IH.
        -- congruence.
        -- exact Hnow.
        -- intros j Hj. rewrite <- fires_tail. apply Hnone. lia.
Qed.

End Lifecycle.

(** Claim C1.  Over an activation of a timed state (calls of [run] that
    begin with [timer] at the sentinel 0 and end with the call that puts
    the sentinel back), [s_setup] is called exactly once, by the first
    call, [s_finish] exactly once, by the last call, and [loop] once by
    every call but the last: after [s_setup], before [s_finish], and never
    after it.  Call by call the hooks are [lifecycle]; in a row they are
    [Setup], then [Loop] as often as there are calls before the last, then
    [Finish]. *)
Theorem activation_lifecycle {X G : Type} (v : vtable X G)
  (times : list Z) (this : TimedState X) (g : G) :
  loop_keeps_timer v ->
  Forall is_ulong times ->
  activation v times this g ->
  map trace (runs v times this g) = lifecycle (length times) /\
  concat (map trace (runs v times this g))
    = Setup :: repeat Loop (length times - 1) ++ [Finish].
Proof.
  intros Hk Hr [Ht [Hne Hact]].
  assert (E : map trace (runs v times this g) = lifecycle (length times)).
  { destruct times as [|t0 rest]; [congruence|].
    pose proof (Hact O _ eq_refl) as H0. cbn [length] in H0.
    assert (Hpos : 0 <= t0) by (inversion Hr as [|? ? [? ?] ?]; assumption).
    cbn [runs map length].
    destruct (run_inactive v t0 this g Ht) as [[_ [Etr Et0]] | [Hlt [Etr Hkeep]]].
    - apply H0 in Et0. injection Et0 as El. symmetry in El.
      apply length_zero_iff_nil in El. subst rest.
      cbn. rewrite Etr. reflexivity.
    - specialize (Hkeep Hk).
      assert (Hnz : timer (obj (run v t0 this g)) <> 0) by lia.
      assert (Hrest : rest <> []).
      { intros ->. cbn in H0. destruct H0 as [_ H0]. specialize (H0 eq_refl). congruence. }
      rewrite Etr. rewrite (active_lifecycle v rest Hk _ _ Hnz Hrest).
      + destruct rest as [|t1 rest']; [congruence|]. cbn [length lifecycle].
        replace (S (length rest') - 1)%nat with (length rest') by lia.
        reflexivity.
      + intros k r Hkr. specialize (Hact (S k) r Hkr). cbn [length] in Hact.
        split; intros H; [apply Hact in H; lia | apply Hact; lia]. }
  split; [exact E|].
  rewrite E. destruct times as [|t0 rest]; [congruence|].
  cbn [length]. rewrite lifecycle_flat.
  replace (S (length rest) - 1)%nat with (length rest) by lia. reflexivity.
Qed.

(** From an inactive state, [s_finish] is called on the first call whose
    time has reached the stored deadline or that finds the stop flag set. *)
Lemma finish_rule {X G : Type} (v : vtable X G)
  (t0 : Z) (rest : list Z) (this : TimedState X) (g : G) (k : nat) (now : Z) :
  loop_keeps_timer v ->
  Forall is_ulong (t0 :: rest) ->
  timer this = 0 ->
  nth_error (t0 :: rest) k = Some now ->
  (forall j, (j < k)%nat -> ~ fires v (t0 :: rest) this g j) ->
  (fires v (t0 :: rest) this g k <->
   deadline v t0 this g <= now \/
   (k <> O /\ flag_before v (t0 :: rest) this g k = true)).
Proof.
  intros Hk Hr Ht Hnow Hnone.
  assert (Hpos : 0 <= t0) by (inversion Hr as [|? ? [? ?] ?]; assumption).
  destruct k as [|k].
  - cbn in Hnow. injection Hnow as ->. rewrite fires_head.
    destruct (run_inactive v now this g Ht) as [[Hc [Etr _]] | [Hlt [Etr _]]];
      rewrite Etr.
    + split; [intros _; left; exact Hc | intros _; right; left; reflexivity].
    + split.
      * intros [H|[H|[]]]; discriminate.
      * intros [H|[H _]]; [lia | congruence].
  - cbn [nth_error] in Hnow. rewrite fires_tail, flag_before_tail.
    assert (Hno0 : ~ In Finish (trace (run v t0 this g))).
    { rewrite <- fires_head with (ts := rest). apply Hnone. lia. }
    destruct (run_inactive v t0 this g Ht) as [[_ [Etr _]] | [Hlt [_ Hkeep]]].
    + exfalso. apply Hno0. rewrite Etr. right. left. reflexivity.
    + specialize (Hkeep Hk). rewrite <- Hkeep.
      rewrite (active_finish_rule v rest Hk _ _ k now).
      * split; [intros [H|H]; [left; exact H | right; split; [discriminate | exact H]]
               | intros [H|[_ H]]; [left; exact H | right; exact H]].
      * lia.
      * exact Hnow.
      * intros j Hj. rewrite <- fires_tail. apply Hnone. lia.
Qed.


(** Claim C2, as amended.  Take an activation that starts at [t0], with
    [d] the duration [s_setup] left and [t0 + d] within the range of
    [unsigned long].  Among the calls of the activation, [s_finish] is
    called on the first one whose time [now] satisfies [now >= t0 + d] or
    that finds the stop flag set: when [loop] sets the flag, [s_finish]
    runs on the call that follows, not on the call that set it. *)
Theorem finish_on_deadline_or_flag {X G : Type} (v : vtable X G)
  (t0 d : Z) (rest : list Z) (this : TimedState X) (g : G) (k : nat) (now : Z) :
  loop_keeps_timer v ->
  Forall is_ulong (t0 :: rest) ->
  timer this = 0 ->
  duration (fst (s_setup v (set_time_of_last_call t0 this) g)) = d ->
  0 <= d ->
  t0 + d < 4294967296 ->
  nth_error (t0 :: rest) k = Some now ->
  (forall j, (j < k)%nat -> ~ fires v (t0 :: rest) this g j) ->
  (fires v (t0 :: rest) this g k <->
   t0 + d <= now \/
   (k <> O /\ flag_before v (t0 :: rest) this g k = true)).
Proof.
  intros Hk Hr Ht Hd Hd0 Hfit Hnow Hnone.
  assert (E : deadline v t0 this g = t0 + d).
  { unfold deadline, ulong. rewrite Hd. apply Z.mod_small.
    inversion Hr as [|? ? [? ?] ?]. lia. }
  rewrite <- E. apply finish_rule; assumption.
Qed.

(** Claim C10.  When the duration a timed state has at its activation (the
    one [run] adds to the time, after [s_setup]) is 0, the first call of
    [run] calls [s_setup] and then [s_finish], without a call of [loop],
    and leaves [timer] at the sentinel 0.  In full: [s_setup] runs on the
    object with the time stored; [s_finish] runs on the object and the
    globals [s_setup] left, the flag cleared and the deadline [time] stored
    in [timer]; what [run] leaves is the object and the globals of
    [s_finish], with [timer] put back to 0; [loop] has no part in it. *)
Theorem zero_duration_single_call {X G : Type} (v : vtable X G)
  (time : Z) (this : TimedState X) (g : G) :
  is_ulong time ->
  timer this = 0 ->
  duration (fst (s_setup v (set_time_of_last_call time this) g)) = 0 ->
  let s := s_setup v (set_time_of_last_call time this) g in
  let f := s_finish v (set_timer time (set_flag_stop false (fst s))) (snd s) in
  run v time this g = (set_timer 0 (fst f), snd f, [Setup; Finish]) /\
  trace (run v time this g) = [Setup; Finish] /\
  timer (obj (run v time this g)) = 0.
Proof.
  intros Hr Ht Hd s f.
  assert (E : deadline v time this g = time).
  { unfold deadline. rewrite Hd, Z.add_0_r. unfold ulong.
    apply Z.mod_small. exact Hr. }
  assert (Ea : activated v time this g
               = (set_timer time (set_flag_stop false (fst s)), snd s)).
  { unfold activated. cbv zeta. unfold deadline in E. rewrite E. reflexivity. }
  destruct (run_inactive_eq v time this g Ht) as [[_ Er] | [Hlt _]]; [|lia].
  rewrite Ea in Er. cbn [fst snd] in Er. fold f in Er.
  rewrite Er. repeat split.
Qed.

(* ================================================================== *)
(** ** The states of MultiSens *)

Import States Scan Sketch Vocabulary.

Ltac break_if :=
  match goal with
  | |- context [if ?c then _ else _] => destruct c eqn:?
  end.

Lemma ResponseWindow_only_loop_and_finish (K : Codes) (lick : Globals -> bool) :
  only_loop_and_finish_write (ResponseWindow_vtable K lick).
Proof. split; intros this g; split; reflexivity. Qed.

Lemma StimPeriod_only_loop_and_finish : only_loop_and_finish_write StimPeriod_vtable.
Proof. split; intros this g; split; reflexivity. Qed.

Lemma StateInterTrialInterval_only_loop_and_finish :
  only_loop_and_finish_write StateInterTrialInterval_vtable.
Proof. split; intros this g; split; reflexivity. Qed.

Lemma StatePostRewardPause_only_loop_and_finish :
  only_loop_and_finish_write StatePostRewardPause_vtable.
Proof. split; intros this g; split; reflexivity. Qed.

Lemma StateErrorTimeout_only_loop_and_finish :
  only_loop_and_finish_write StateErrorTimeout_vtable.
Proof. split; intros this g; split; reflexivity. Qed.

Lemma ResponseWindow_loop_keeps_timer (K : Codes) (lick : Globals -> bool) :
  loop_keeps_timer (ResponseWindow_vtable K lick).
Proof.
  intros this g. cbn [TimedStateLib.loop ResponseWindow_vtable]. unfold StateResponseWindow_loop.
  repeat break_if; reflexivity.
Qed.

Lemma StimPeriod_loop_keeps_timer : loop_keeps_timer StimPeriod_vtable.
Proof.
  intros this g. cbn [TimedStateLib.loop StimPeriod_vtable]. unfold StimPeriod_loop.
  repeat break_if; reflexivity.
Qed.

(** No class of the sketch assigns [timer] in its [loop]. *)
Lemma sketch_loops_keep_timer (K : Codes) :
  loop_keeps_timer (StateResponseWindow_vtable K) /\
  loop_keeps_timer (StateFakeResponseWindow_vtable K) /\
  loop_keeps_timer StimPeriod_vtable /\
  loop_keeps_timer StateInterTrialInterval_vtable /\
  loop_keeps_timer StatePostRewardPause_vtable /\
  loop_keeps_timer StateErrorTimeout_vtable.
Proof.
  repeat split; try apply ResponseWindow_loop_keeps_timer;
    try apply StimPeriod_loop_keeps_timer; intros this g; reflexivity.
Qed.

(** What [loop] of the response window does once the rewards of the trial
    have reached MRT. *)
Lemma ResponseWindow_loop_max_rewards (K : Codes) (lick : Globals -> bool)
  (this : StateResponseWindow) (g : Globals) :
  param tpidx_MRT g <= my_rewards_this_trial (ext this) ->
  StateResponseWindow_loop K lick this g
  = (set_flag_stop true this, set_next_state INTER_TRIAL_INTERVAL g).
Proof.
  intros H. unfold StateResponseWindow_loop.
  destruct (param tpidx_MRT g <=? my_rewards_this_trial (ext this)) eqn:E;
    [reflexivity | lia].
Qed.

(** Claim C6.  On a call of [run] that reaches [loop] of the response
    window while the rewards given this trial are at least MRT, the state
    sets its stop flag and sets the next state to INTER_TRIAL_INTERVAL; the
    call of [run] that follows then runs [s_finish] whatever the time, so
    the state ends before its duration has elapsed.  In every class of the
    sketch [s_setup] and [update] neither set the flag nor write
    [next_state]: only [loop] and [s_finish] do. *)
Theorem max_rewards_stop_response_window (K : Codes)
  (set_licking_variables : Globals -> bool)
  (time : Z) (this : StateResponseWindow) (g : Globals) :
  is_ulong time ->
  In Loop (trace (run (ResponseWindow_vtable K set_licking_variables) time this g)) ->
  param tpidx_MRT g <= my_rewards_this_trial (ext this) ->
  (flag_stop (obj (run (ResponseWindow_vtable K set_licking_variables) time this g)) = true /\
   next_state (glob (run (ResponseWindow_vtable K set_licking_variables) time this g))
     = INTER_TRIAL_INTERVAL) /\
  (forall later,
     trace (run (ResponseWindow_vtable K set_licking_variables) later
              (obj (run (ResponseWindow_vtable K set_licking_variables) time this g))
              (glob (run (ResponseWindow_vtable K set_licking_variables) time this g)))
     = [Finish]) /\
  (only_loop_and_finish_write (StateResponseWindow_vtable K) /\
   only_loop_and_finish_write (StateFakeResponseWindow_vtable K) /\
   only_loop_and_finish_write StimPeriod_vtable /\
   only_loop_and_finish_write StateInterTrialInterval_vtable /\
   only_loop_and_finish_write StatePostRewardPause_vtable /\
   only_loop_and_finish_write StateErrorTimeout_vtable).
Proof.
  intros Hr Hloop Hmax.
  set (v := ResponseWindow_vtable K set_licking_variables) in *.
  assert (Hrun : flag_stop (obj (run v time this g)) = true /\
                 next_state (glob (run v time this g)) = INTER_TRIAL_INTERVAL /\
                 timer (obj (run v time this g)) <> 0).
  { destruct (Z.eq_dec (timer this) 0) as [E0|E0].
    - destruct (run_inactive_eq v time this g E0) as [[_ E] | [Hlt E]];
        rewrite E in Hloop |- *.
      + cbn in Hloop. destruct Hloop as [H|[H|[]]]; discriminate.
      + cbn [TimedStateLib.loop v ResponseWindow_vtable].
        rewrite ResponseWindow_loop_max_rewards by exact Hmax.
        unfold deadline in Hlt. unfold is_ulong in Hr.
        cbn in Hlt |- *. repeat split; lia.
    - destruct (run_active_eq v time this g E0) as [[_ E] | [_ [_ E]]];
        rewrite E in Hloop |- *.
      + cbn in Hloop. destruct Hloop as [H|[]]; discriminate.
      + cbn [TimedStateLib.loop v ResponseWindow_vtable].
        rewrite ResponseWindow_loop_max_rewards by exact Hmax.
        cbn. repeat split. exact E0. }
  destruct Hrun as [Hflag [Hnext Htimer]].
  split; [split; assumption|]. split.
  - intros later.
    destruct (run_active v later _ (glob (run v time this g)) Htimer)
      as [[_ [Etr _]] | [Hf _]]; [exact Etr | congruence].
  - repeat split; reflexivity.
Qed.

Lemma nth_upd_other {A : Type} (i j : nat) (v d : A) (a : list A) :
  i <> j -> nth j (upd i v a) d = nth j a d.
Proof.
  revert i j. induction a as [|h t IH]; intros i j Hij.
  - destruct i; reflexivity.
  - destruct i as [|i], j as [|j]; cbn [upd nth]; try reflexivity.
    + congruence.
    + apply IH. congruence.
Qed.

Lemma length_upd {A : Type} (i : nat) (v : A) (a : list A) :
  length (upd i v a) = length a.
Proof.
  revert i. induction a as [|h t IH]; intros i; [destruct i; reflexivity|].
  destruct i as [|i]; cbn [upd length]; [reflexivity | rewrite IH; reflexivity].
Qed.

(** What [loop] of the response window does with a lick on a trial that
    does not reward GO while TOE is false: at most the first response is
    recorded. *)
Lemma ResponseWindow_loop_toe_false (K : Codes) (lick : Globals -> bool)
  (this : StateResponseWindow) (g : Globals) :
  my_rewards_this_trial (ext this) < param tpidx_MRT g ->
  lick g = true ->
  param tpidx_REW g <> GO K ->
  param tpidx_TERMINATE_ON_ERR g = __TRIAL_SPEAK_NO K ->
  StateResponseWindow_loop K lick this g
  = (this, if result tridx_RESPONSE g =? 0
           then set_result tridx_RESPONSE (GO K) g else g).
Proof.
  intros Hmrt Hlick Hrew Htoe. unfold StateResponseWindow_loop.
  destruct (param tpidx_MRT g <=? my_rewards_this_trial (ext this)) eqn:E; [lia|].
  rewrite Hlick. cbn [negb].
  assert (Ep : forall g', param tpidx_REW g' = param tpidx_REW g ->
                          (param tpidx_REW g' =? GO K) = false).
  { intros g' ->. apply Z.eqb_neq. exact Hrew. }
  assert (Et : forall g', param tpidx_TERMINATE_ON_ERR g' = param tpidx_TERMINATE_ON_ERR g ->
                          (param tpidx_TERMINATE_ON_ERR g' =? __TRIAL_SPEAK_NO K) = true).
  { intros g' ->. apply Z.eqb_eq. exact Htoe. }
  destruct (result tridx_RESPONSE g =? 0);
    rewrite Ep by reflexivity; rewrite andb_false_r; rewrite Et by reflexivity;
    reflexivity.
Qed.

(** What the parts of [loop] leave alone. *)
Lemma take_action_frame (protocol_cmd argument1 argument2 : string) (g : Globals) :
  let g' := snd (take_action protocol_cmd argument1 argument2 g) in
  results_values g' = results_values g /\ next_state g' = next_state g /\
  input g' = input g.
Proof.
  unfold take_action, safe_int_convert.
  repeat (break_if || destruct (find_param _ _ _) || destruct (sscanf_ld _ _));
    cbn; auto.
Qed.

Lemma loop_every_pass_frame (inp : TickInput) (w : World) :
  results_values (loop_every_pass inp w) = results_values (globals w) /\
  next_state (loop_every_pass inp w) = current_state w /\
  input (loop_every_pass inp w) = inp.
Proof.
  unfold loop_every_pass, communications.
  cbn [input set_input set_next_state chat].
  destruct (chat inp) as [[|c a1 a2]|].
  - break_if; cbn; auto.
  - pose proof (take_action_frame c a1 a2
                  (set_next_state (current_state w) (set_input inp (globals w)))) as H.
    destruct (take_action c a1 a2 _) as [st g']. cbn in H.
    destruct H as [H1 [H2 H3]].
    break_if; cbn; rewrite ?H1, ?H2, ?H3; auto.
  - break_if; cbn; auto.
Qed.

Lemma loop_update_state_frame (inp : TickInput) (w : World) :
  current_state (loop_update_state inp w) = next_state (globals w) /\
  next_state (globals (loop_update_state inp w)) = next_state (globals w) /\
  results_values (globals (loop_update_state inp w)) = results_values (globals w).
Proof. unfold loop_update_state. break_if; cbn; auto. Qed.

(** A pass in RESPONSE_WINDOW is [update], [run] and the commit. *)
Lemma loop_in_response_window (K : Codes) (inp : TickInput) (w : World) :
  current_state w = RESPONSE_WINDOW ->
  Sketch.loop K inp w
  = let g := loop_every_pass inp w in
    let r := run (StateResponseWindow_vtable K) (millis_loop inp)
               (fst (update (StateResponseWindow_vtable K) (srw w) g)) g in
    loop_update_state inp (set_globals (glob r) (set_srw (obj r) w)).
Proof.
  intros E. unfold Sketch.loop, loop_state_dependent. rewrite E. reflexivity.
Qed.

(** Claim C9.  On a pass in RESPONSE_WINDOW on which [run] reaches [loop],
    the loop detects a lick (the rewards of the trial are below MRT and the
    lick detector is above the threshold), the trial does not reward GO and
    TOE is false, [next_state] and the OUTCOME result are left as they
    were: the sketch is still in RESPONSE_WINDOW after the pass.  (An unset
    RESPONSE is the only result written.) *)
Theorem toe_false_lick_stays_in_response_window (K : Codes)
  (inp : TickInput) (w : World) :
  current_state w = RESPONSE_WINDOW ->
  In Loop (trace (run (StateResponseWindow_vtable K) (millis_loop inp)
                    (fst (update (StateResponseWindow_vtable K) (srw w)
                            (loop_every_pass inp w)))
                    (loop_every_pass inp w))) ->
  my_rewards_this_trial (ext (srw w)) < param tpidx_MRT (loop_every_pass inp w) ->
  lickThresh < aIn_window (input (loop_every_pass inp w)) ->
  param tpidx_REW (loop_every_pass inp w) <> GO K ->
  param tpidx_TERMINATE_ON_ERR (loop_every_pass inp w) = __TRIAL_SPEAK_NO K ->
  current_state (Sketch.loop K inp w) = RESPONSE_WINDOW /\
  next_state (globals (Sketch.loop K inp w)) = next_state (loop_every_pass inp w) /\
  next_state (loop_every_pass inp w) = RESPONSE_WINDOW /\
  result tridx_OUTCOME (globals (Sketch.loop K inp w))
    = result tridx_OUTCOME (globals w) /\
  (result tridx_RESPONSE (globals w) <> 0 ->
   result tridx_RESPONSE (globals (Sketch.loop K inp w))
     = result tridx_RESPONSE (globals w)).
Proof.
  intros Hcur Hloop Hmrt Hlick Hrew Htoe.
  rewrite (loop_in_response_window K inp w Hcur). cbv zeta.
  destruct (loop_every_pass_frame inp w) as [Fres [Fnext Finp]].
  set (g := loop_every_pass inp w) in *.
  set (v := StateResponseWindow_vtable K) in *.
  set (this := fst (update v (srw w) g)) in *.
  assert (Hl : StateResponseWindow_set_licking_variables g = true).
  { unfold StateResponseWindow_set_licking_variables.
    destruct (lickThresh <? aIn_window (input g)) eqn:E; [reflexivity | lia]. }
  assert (Hrun : glob (run v (millis_loop inp) this g)
                 = if result tridx_RESPONSE g =? 0
                   then set_result tridx_RESPONSE (GO K) g else g).
  { destruct (Z.eq_dec (timer this) 0) as [E0|E0].
    - destruct (run_inactive_eq v (millis_loop inp) this g E0) as [[_ E] | [_ E]];
        rewrite E in Hloop |- *.
      + cbn in Hloop. destruct Hloop as [H|[H|[]]]; discriminate.
      + cbn [TimedStateLib.loop v StateResponseWindow_vtable ResponseWindow_vtable].
        rewrite (ResponseWindow_loop_toe_false K) by assumption. reflexivity.
    - destruct (run_active_eq v (millis_loop inp) this g E0) as [[_ E] | [_ [_ E]]];
        rewrite E in Hloop |- *.
      + cbn in Hloop. destruct Hloop as [H|[]]; discriminate.
      + cbn [TimedStateLib.loop v StateResponseWindow_vtable ResponseWindow_vtable].
        rewrite (ResponseWindow_loop_toe_false K) by assumption. reflexivity. }
  destruct (loop_update_state_frame inp
              (set_globals (glob (run v (millis_loop inp) this g))
                 (set_srw (obj (run v (millis_loop inp) this g)) w)))
    as [Ucur [Unext Ures]].
  cbn [globals set_globals] in Ucur, Unext, Ures.
  assert (Hn : next_state (glob (run v (millis_loop inp) this g)) = next_state g).
  { rewrite Hrun. break_if; reflexivity. }
  unfold result. rewrite Ucur, Unext, Ures, Hn, Hrun.
  repeat split; try congruence.
  - break_if; [|rewrite Fres; reflexivity].
    cbn [results_values set_result set_results_values].
    rewrite nth_upd_other by (unfold tridx_RESPONSE, tridx_OUTCOME; congruence).
    rewrite Fres. reflexivity.
  - intros Hnz. break_if; [|rewrite Fres; reflexivity].
    apply Z.eqb_eq in Heqb. unfold result in Heqb. rewrite Fres in Heqb. contradiction.
Qed.

(** ** The results of a trial *)

Lemma keeps_response_trans (g1 g2 g3 : Globals) :
  keeps_response g1 g2 -> keeps_response g2 g3 -> keeps_response g1 g3.
Proof.
  unfold keeps_response. intros H12 H23 Hnz.
  rewrite H23; [apply H12; exact Hnz | rewrite H12; assumption].
Qed.

Lemma keeps_results_size_trans (g1 g2 g3 : Globals) :
  keeps_results_size g1 g2 -> keeps_results_size g2 g3 -> keeps_results_size g1 g3.
Proof. unfold keeps_results_size. congruence. Qed.

(** What the hooks of a class keep, [run] keeps. *)
Lemma run_keeps {X : Type} (R : Globals -> Globals -> Prop) (v : vtable X Globals)
  (time : Z) (this : TimedState X) (g : Globals) :
  (forall a b c, R a b -> R b c -> R a c) ->
  class_keeps R v ->
  R g (glob (run v time this g)).
Proof.
  intros Htrans [Hs [Hl [Hf _]]].
  destruct (Z.eq_dec (timer this) 0) as [E0|E0].
  - assert (Ha : R g (snd (activated v time this g))) by apply Hs.
    destruct (run_inactive_eq v time this g E0) as [[_ E] | [_ E]]; rewrite E;
      cbn [glob fst snd]; eapply Htrans; eauto.
  - destruct (run_active_eq v time this g E0) as [[_ E] | [_ [_ E]]]; rewrite E;
      cbn [glob fst snd]; auto.
Qed.

Lemma result_response_set_outcome (v : Z) (g : Globals) :
  result tridx_RESPONSE (set_result tridx_OUTCOME v g) = result tridx_RESPONSE g.
Proof.
  unfold result, set_result. cbn [results_values set_results_values].
  apply nth_upd_other. unfold tridx_OUTCOME, tridx_RESPONSE. congruence.
Qed.

Lemma ResponseWindow_keeps_response (K : Codes) (lick : Globals -> bool) :
  class_keeps keeps_response (ResponseWindow_vtable K lick).
Proof.
  repeat split; intros this g Hnz; cbn [s_setup TimedStateLib.loop s_finish update
    ResponseWindow_vtable]; try reflexivity.
  - unfold StateResponseWindow_loop.
    destruct (result tridx_RESPONSE g =? 0) eqn:E0; [apply Z.eqb_eq in E0; contradiction|].
    repeat break_if; cbn [snd]; try reflexivity.
    + apply (result_response_set_outcome (OUTCOME_HIT K) (set_next_state REWARD g)).
    + apply (result_response_set_outcome (OUTCOME_FA K) g).
  - unfold StateResponseWindow_s_finish.
    destruct (result tridx_RESPONSE g =? 0) eqn:E0; [apply Z.eqb_eq in E0; contradiction|].
    reflexivity.
Qed.

Lemma ResponseWindow_keeps_results_size (K : Codes) (lick : Globals -> bool) :
  class_keeps keeps_results_size (ResponseWindow_vtable K lick).
Proof.
  repeat split; intros this g; unfold keeps_results_size;
    cbn [s_setup TimedStateLib.loop s_finish update ResponseWindow_vtable];
    try reflexivity.
  - unfold StateResponseWindow_loop, set_result.
    repeat break_if; cbn [snd results_values set_results_values set_next_state];
      rewrite ?length_upd; reflexivity.
  - unfold StateResponseWindow_s_finish, set_result.
    repeat break_if; cbn [snd results_values set_results_values set_next_state];
      rewrite ?length_upd; reflexivity.
Qed.

Lemma StimPeriod_keeps (R : Globals -> Globals -> Prop) :
  (forall g g', results_values g' = results_values g -> R g g') ->
  class_keeps R StimPeriod_vtable.
Proof.
  intros HR. repeat split; intros this g; apply HR;
    cbn [s_setup TimedStateLib.loop s_finish update StimPeriod_vtable]; try reflexivity.
  - unfold StimPeriod_loop. break_if; reflexivity.
  - unfold StimPeriod_s_finish. break_if; reflexivity.
Qed.

Lemma StateInterTrialInterval_keeps (R : Globals -> Globals -> Prop) :
  (forall g g', results_values g' = results_values g -> R g g') ->
  class_keeps R StateInterTrialInterval_vtable.
Proof. intros HR. repeat split; intros this g; apply HR; reflexivity. Qed.

Lemma StatePostRewardPause_keeps (R : Globals -> Globals -> Prop) :
  (forall g g', results_values g' = results_values g -> R g g') ->
  class_keeps R StatePostRewardPause_vtable.
Proof. intros HR. repeat split; intros this g; apply HR; reflexivity. Qed.

Lemma StateErrorTimeout_keeps (R : Globals -> Globals -> Prop) :
  (forall g g', results_values g' = results_values g -> R g g') ->
  class_keeps R StateErrorTimeout_vtable.
Proof. intros HR. repeat split; intros this g; apply HR; reflexivity. Qed.

Lemma same_results_keeps_response (g g' : Globals) :
  results_values g' = results_values g -> keeps_response g g'.
Proof. intros E _. unfold result. rewrite E. reflexivity. Qed.

Lemma same_results_keeps_size (g g' : Globals) :
  results_values g' = results_values g -> keeps_results_size g g'.
Proof. intros E. unfold keeps_results_size. rewrite E. reflexivity. Qed.

(** The reset of TRIAL_START on a table of the declared size. *)
Lemma trial_start_resets (time : Z) (g : Globals) :
  length (results_values g) = N_TRIAL_RESULTS ->
  results_values (trial_start time g) = default_results_values.
Proof.
  intros Hlen. unfold trial_start.
  cbn [set_next_state results_values].
  cbn [N_TRIAL_RESULTS seq fold_left].
  unfold set_result at 1 2. cbn [results_values set_results_values].
  cbn.
  destruct (results_values g) as [|a [|b [|c l]]]; try discriminate Hlen.
  reflexivity.
Qed.

(** The state-dependent part of a pass, for a relation that holds between
    globals with the same results and that the response window keeps. *)
Lemma loop_state_dependent_keeps (R : Globals -> Globals -> Prop) (K : Codes)
  (time : Z) (g : Globals) (w : World) :
  (forall a b c, R a b -> R b c -> R a c) ->
  (forall g g', results_values g' = results_values g -> R g g') ->
  class_keeps R (StateResponseWindow_vtable K) ->
  R g (trial_start time g) \/ current_state w <> TRIAL_START ->
  R g (globals (loop_state_dependent K time g w)).
Proof.
  intros Htrans Hsame Hrw Hts. unfold loop_state_dependent.
  destruct (current_state w); cbn [globals set_globals].
  - break_if; apply Hsame; reflexivity.
  - destruct Hts as [H|H]; [exact H | congruence].
  - apply run_keeps; [exact Htrans | apply StimPeriod_keeps; exact Hsame].
  - cbn [FAKE_RESPONDER update StateResponseWindow_vtable ResponseWindow_vtable
         StateResponseWindow_update globals set_globals].
    apply (run_keeps R (StateResponseWindow_vtable K)); assumption.
  - apply Hsame. reflexivity.
  - apply run_keeps; [exact Htrans | apply StatePostRewardPause_keeps; exact Hsame].
  - apply run_keeps; [exact Htrans | apply StateErrorTimeout_keeps; exact Hsame].
  - apply run_keeps; [exact Htrans | apply StateInterTrialInterval_keeps; exact Hsame].
Qed.

(** Claim C8.  On a result table of its declared size: a pass in
    TRIAL_START leaves the table equal to the default results, and a pass
    in any other state leaves a RESPONSE that is not 0 as it is, so that a
    recorded response is overwritten only by the reset of the next
    TRIAL_START.  Every pass leaves the table at its size. *)
Theorem results_reset_then_response_latched (K : Codes)
  (inp : TickInput) (w : World) :
  length (results_values (globals w)) = N_TRIAL_RESULTS ->
  (current_state w = TRIAL_START ->
   results_values (globals (Sketch.loop K inp w)) = default_results_values) /\
  (current_state w <> TRIAL_START ->
   result tridx_RESPONSE (globals w) <> 0 ->
   result tridx_RESPONSE (globals (Sketch.loop K inp w))
     = result tridx_RESPONSE (globals w)) /\
  length (results_values (globals (Sketch.loop K inp w))) = N_TRIAL_RESULTS.
Proof.
  intros Hlen.
  destruct (loop_every_pass_frame inp w) as [Fres [Fnext Finp]].
  unfold Sketch.loop. cbv zeta.
  destruct (loop_update_state_frame inp
              (loop_state_dependent K (millis_loop inp) (loop_every_pass inp w) w))
    as [_ [_ Ures]].
  split; [|split].
  - intros Hcur. rewrite Ures. unfold loop_state_dependent. rewrite Hcur.
    cbn [globals set_globals]. apply trial_start_resets. rewrite Fres. exact Hlen.
  - intros Hcur Hnz. unfold result at 1. rewrite Ures.
    pose proof (loop_state_dependent_keeps keeps_response K (millis_loop inp)
                  (loop_every_pass inp w) w keeps_response_trans
                  same_results_keeps_response
                  (ResponseWindow_keeps_response K _) (or_intror Hcur)) as Hk.
    unfold keeps_response, result in Hk. rewrite Fres in Hk.
    apply Hk. exact Hnz.
  - rewrite Ures.
    assert (Hts : keeps_results_size (loop_every_pass inp w)
                    (trial_start (millis_loop inp) (loop_every_pass inp w))).
    { unfold keeps_results_size. rewrite trial_start_resets by (rewrite Fres; exact Hlen).
      rewrite Fres, Hlen. reflexivity. }
    pose proof (loop_state_dependent_keeps keeps_results_size K (millis_loop inp)
                  (loop_every_pass inp w) w keeps_results_size_trans
                  same_results_keeps_size
                  (ResponseWindow_keeps_results_size K _) (or_introl Hts)) as Hk.
    unfold keeps_results_size in Hk. rewrite Hk, Fres. exact Hlen.
Qed.

(** ** Setting a parameter *)





(** ** Trials, pass by pass *)

(** Claim C2, counterexample: a response window that starts at 0 with the
    rewards of the trial at MRT.  The first call runs [s_setup] and [loop],
    which sets the flag; [s_finish] runs on the second call, at time 1,
    long before the deadline 45000, and not on the call that set the flag.
    (And a window that starts 6 ms before the clock wraps has its deadline
    behind it: [s_finish] runs on the first call.) *)
Lemma stop_flag_finishes_on_the_next_call :
  map trace (runs (StateResponseWindow_vtable sample_codes) [0; 1]
               srw_after_reward globals_in_response_window)
    = [[Setup; Loop]; [Finish]] /\
  flag_before (StateResponseWindow_vtable sample_codes) [0; 1]
    srw_after_reward globals_in_response_window 1 = true /\
  deadline (StateResponseWindow_vtable sample_codes) 0
    srw_after_reward globals_in_response_window = 45000 /\
  ~ finish_on_the_call_that_sets_flag (StateResponseWindow_vtable sample_codes)
      [0; 1] srw_after_reward globals_in_response_window /\
  (is_ulong 4294967290 /\
   trace (run (StateResponseWindow_vtable sample_codes) 4294967290
            (srw initial_world) globals_in_response_window)
     = [Setup; Finish] /\
   duration (fst (s_setup (StateResponseWindow_vtable sample_codes)
                    (set_time_of_last_call 4294967290 (srw initial_world))
                    globals_in_response_window)) = 45000).
Proof.
  split; [reflexivity|]. split; [reflexivity|]. split; [reflexivity|]. split.
  - intros H. specialize (H O _ eq_refl eq_refl).
    vm_compute in H. destruct H as [H|[H|[]]]; discriminate.
  - split; [vm_compute; split; congruence | split; reflexivity].
Qed.

(** Claim C3, the failing input.  [s_finish] of the response window with a
    RESPONSE already recorded changes nothing, [next_state] included: the
    assignment of INTER_TRIAL_INTERVAL stands inside the braces of the test
    for an unset RESPONSE.  In a trial with TOE false and a lick at 60, the
    window that opened at 54 expires at 45054 and the sketch is still in
    RESPONSE_WINDOW, with the state inactive again. *)
Theorem finish_with_recorded_response_sets_no_state :
  (forall (K : Codes) (this : StateResponseWindow),
     StateResponseWindow_s_finish K this
       (set_results_values [1; 0] globals_in_response_window)
     = (this, set_results_values [1; 0] globals_in_response_window)) /\
  results_values (globals world_after_lick) = [1; 0] /\
  current_state (Sketch.loop sample_codes (quiet 45054 0) world_after_lick)
    = RESPONSE_WINDOW /\
  timer (srw (Sketch.loop sample_codes (quiet 45054 0) world_after_lick)) = 0 /\
  trace (run (StateResponseWindow_vtable sample_codes) 45054
           (srw world_after_lick)
           (loop_every_pass (quiet 45054 0) world_after_lick))
    = [Finish].
Proof. repeat split; vm_compute; reflexivity. Qed.

(** Claim C4, the failing input.  [StimPeriod::s_setup] takes the duration
    from REW_DUR, not from STIMDUR: the deadline of an activation is the
    time plus the reward duration.  With the initial parameters (STIMDUR
    2000, REW_DUR 50) the stimulus period entered at 3 has its deadline at
    53. *)
Theorem stim_period_deadline_from_reward_duration :
  (forall (time : Z) (this : StimPeriod) (g : Globals),
     deadline StimPeriod_vtable time this g
     = ulong (time + ulong (param tpidx_REW_DUR g))) /\
  param tpidx_STIM_DUR initial_globals = 2000 /\
  param tpidx_REW_DUR initial_globals = 50 /\
  timer (obj (run StimPeriod_vtable 3 (stim_period initial_world) initial_globals))
    = 53.
Proof. repeat split. Qed.

(** Claim C5, the failing input.  [licked] is assigned by [s_setup] only,
    which clears it, so [s_finish] of the stimulus period always chooses
    RESPONSE_WINDOW.  A stimulus period with the lick detector above the
    threshold on every pass ends in RESPONSE_WINDOW, not in ERROR.  (The
    other half of the claim is what the code does: ERROR, entered at 60 by
    a false alarm in the response window and set up at 61, lasts the 6000
    ms of TO and gives way to INTER_TRIAL_INTERVAL at 6061.) *)
Theorem licked_stimulus_period_goes_to_response_window :
  (forall (this : StimPeriod) (g : Globals),
     licked (ext (fst (StimPeriod_s_setup this g))) = 0 /\
     licked (ext (fst (StimPeriod_loop this g))) = licked (ext this) /\
     licked (ext (fst (StimPeriod_s_finish this g))) = licked (ext this)) /\
  (forall (this : StimPeriod) (g : Globals) (fcns : list Z),
     next_state (snd (StimPeriod_s_finish (set_ext (mkStimPeriod 0 fcns) this) g))
     = RESPONSE_WINDOW) /\
  Forall (fun inp => checkLicks (aIn_loop inp) = true)
    (skipn 2 licked_stimulus_period) /\
  map (fun n => current_state
                  (passes sample_codes (firstn n licked_stimulus_period) initial_world))
    [2; 3; 4; 5]%nat
  = [STIM_PERIOD; STIM_PERIOD; STIM_PERIOD; RESPONSE_WINDOW] /\
  map (fun n => current_state
                  (passes sample_codes (firstn n false_alarm_trial) initial_world))
    [6; 7; 8]%nat
  = [ERROR; ERROR; INTER_TRIAL_INTERVAL].
Proof.
  split; [|split; [|split; [|split]]].
  - intros this g. repeat split.
    + unfold StimPeriod_loop. repeat break_if; reflexivity.
    + unfold StimPeriod_s_finish. repeat break_if; reflexivity.
  - intros this g fcns. reflexivity.
  - repeat constructor.
  - vm_compute. reflexivity.
  - vm_compute. reflexivity.
Qed.

(** ** The theorems at concrete inputs *)

(** Claim C1 at a response window entered at 0 and called again at 10 and
    at 45000, the deadline. *)
Lemma activation_lifecycle_witness :
  map trace (runs (StateResponseWindow_vtable sample_codes) [0; 10; 45000]
               (srw initial_world) globals_in_response_window)
    = lifecycle (length [0; 10; 45000]) /\
  concat (map trace (runs (StateResponseWindow_vtable sample_codes) [0; 10; 45000]
                       (srw initial_world) globals_in_response_window))
    = Setup :: repeat Loop (length [0; 10; 45000] - 1) ++ [Finish].
Proof.
  apply (activation_lifecycle (StateResponseWindow_vtable sample_codes)
           [0; 10; 45000] (srw initial_world) globals_in_response_window).
  - apply ResponseWindow_loop_keeps_timer.
  - repeat constructor; vm_compute; congruence.
  - split; [reflexivity|]. split; [discriminate|].
    intros k r H.
    destruct k as [|[|[|k]]]; cbn [runs nth_error] in H;
      try (destruct k; discriminate H);
      injection H as <-; split; intros E; vm_compute in E |- *;
      try discriminate E; reflexivity.
Defined.

(** Claim C2, as amended, at the response window of the counterexample:
    the second call, at time 1, runs [s_finish] because the first call
    left the flag set. *)
Lemma finish_on_deadline_or_flag_witness :
  fires (StateResponseWindow_vtable sample_codes) [0; 1]
    srw_after_reward globals_in_response_window 1 <->
  0 + 45000 <= 1 \/
  (1%nat <> O /\
   flag_before (StateResponseWindow_vtable sample_codes) [0; 1]
     srw_after_reward globals_in_response_window 1 = true).
Proof.
  apply (finish_on_deadline_or_flag (StateResponseWindow_vtable sample_codes)
           0 45000 [1] srw_after_reward globals_in_response_window 1%nat 1).
  - apply ResponseWindow_loop_keeps_timer.
  - repeat constructor; vm_compute; congruence.
  - reflexivity.
  - reflexivity.
  - lia.
  - lia.
  - reflexivity.
  - intros j Hj [r [E H]].
    destruct j as [|j]; [|lia].
    cbn [runs nth_error] in E. injection E as <-.
    vm_compute in H. destruct H as [H|[H|[]]]; discriminate.
Defined.

(** Claim C10 at the inter-trial interval after SET ITI 0, entered at the
    time 5 with INTER_TRIAL_INTERVAL as the next state: the one call
    leaves the two result lines of [s_setup], stamped 5, and the next
    state of [s_finish]. *)
Lemma zero_duration_single_call_witness :
  run StateInterTrialInterval_vtable 5 (state_inter_trial_interval initial_world)
    (set_next_state INTER_TRIAL_INTERVAL
       (snd (take_action "SET" "ITI" "0" initial_globals)))
  = (set_timer 0
       (fst (StateInterTrialInterval_s_finish
               (set_timer 5 (set_flag_stop false
                  (fst (StateInterTrialInterval_s_setup
                          (set_time_of_last_call 5
                             (state_inter_trial_interval initial_world))
                          (set_next_state INTER_TRIAL_INTERVAL
                             (snd (take_action "SET" "ITI" "0" initial_globals)))))))
               (snd (StateInterTrialInterval_s_setup
                       (set_time_of_last_call 5
                          (state_inter_trial_interval initial_world))
                       (set_next_state INTER_TRIAL_INTERVAL
                          (snd (take_action "SET" "ITI" "0" initial_globals))))))),
     set_next_state WAIT_TO_START_TRIAL
       (emit (Serial_TRLR 5 "OUTC" 0)
          (emit (Serial_TRLR 5 "RESP" 0)
             (set_next_state INTER_TRIAL_INTERVAL
                (snd (take_action "SET" "ITI" "0" initial_globals))))),
     [Setup; Finish]) /\
  trace (run StateInterTrialInterval_vtable 5
           (state_inter_trial_interval initial_world)
           (set_next_state INTER_TRIAL_INTERVAL
              (snd (take_action "SET" "ITI" "0" initial_globals))))
    = [Setup; Finish] /\
  timer (obj (run StateInterTrialInterval_vtable 5
                (state_inter_trial_interval initial_world)
                (set_next_state INTER_TRIAL_INTERVAL
                   (snd (take_action "SET" "ITI" "0" initial_globals)))))
    = 0.
Proof.
  apply (zero_duration_single_call StateInterTrialInterval_vtable 5
           (state_inter_trial_interval initial_world)
           (set_next_state INTER_TRIAL_INTERVAL
              (snd (take_action "SET" "ITI" "0" initial_globals)))).
  - vm_compute. split; congruence.
  - reflexivity.
  - reflexivity.
Defined.

(** Claim C6 at the response window after one reward, MRT being 1. *)
Lemma max_rewards_stop_response_window_witness :
  (flag_stop (obj (run (ResponseWindow_vtable sample_codes
                          StateResponseWindow_set_licking_variables) 0
                     srw_after_reward globals_in_response_window)) = true /\
   next_state (glob (run (ResponseWindow_vtable sample_codes
                            StateResponseWindow_set_licking_variables) 0
                       srw_after_reward globals_in_response_window))
     = INTER_TRIAL_INTERVAL) /\
  (forall later,
     trace (run (ResponseWindow_vtable sample_codes
                   StateResponseWindow_set_licking_variables) later
              (obj (run (ResponseWindow_vtable sample_codes
                           StateResponseWindow_set_licking_variables) 0
                      srw_after_reward globals_in_response_window))
              (glob (run (ResponseWindow_vtable sample_codes
                            StateResponseWindow_set_licking_variables) 0
                       srw_after_reward globals_in_response_window)))
     = [Finish]) /\
  (only_loop_and_finish_write (StateResponseWindow_vtable sample_codes) /\
   only_loop_and_finish_write (StateFakeResponseWindow_vtable sample_codes) /\
   only_loop_and_finish_write StimPeriod_vtable /\
   only_loop_and_finish_write StateInterTrialInterval_vtable /\
   only_loop_and_finish_write StatePostRewardPause_vtable /\
   only_loop_and_finish_write StateErrorTimeout_vtable).
Proof.
  apply (max_rewards_stop_response_window sample_codes
           StateResponseWindow_set_licking_variables 0
           srw_after_reward globals_in_response_window).
  - vm_compute. split; congruence.
  - vm_compute. right. left. reflexivity.
  - vm_compute. congruence.
Defined.


(** Claim C8 at the start of a second trial, the first having recorded a
    response and an outcome, and at the pass after the lick of a trial. *)
Lemma results_reset_then_response_latched_witness :
  (results_values (globals world_at_second_trial_start) = [1; 2] /\
   results_values (globals (Sketch.loop sample_codes (quiet 9064 0)
                              world_at_second_trial_start))
     = default_results_values) /\
  (result tridx_RESPONSE (globals world_after_lick) = 1 /\
   result tridx_RESPONSE (globals (Sketch.loop sample_codes (quiet 61 1023)
                                     world_after_lick))
     = result tridx_RESPONSE (globals world_after_lick)).
Proof.
  split; (split; [reflexivity|]).
  - apply (results_reset_then_response_latched sample_codes (quiet 9064 0)
             world_at_second_trial_start); reflexivity.
  - apply (results_reset_then_response_latched sample_codes (quiet 61 1023)
             world_after_lick); vm_compute; congruence.
Defined.

(** Claim C9 at the lick at 60 of the trial with TOE false. *)
Lemma toe_false_lick_stays_in_response_window_witness :
  current_state (Sketch.loop sample_codes (quiet 60 1023) world_in_response_window)
    = RESPONSE_WINDOW /\
  next_state (globals (Sketch.loop sample_codes (quiet 60 1023) world_in_response_window))
    = next_state (loop_every_pass (quiet 60 1023) world_in_response_window) /\
  next_state (loop_every_pass (quiet 60 1023) world_in_response_window)
    = RESPONSE_WINDOW /\
  result tridx_OUTCOME (globals (Sketch.loop sample_codes (quiet 60 1023)
                                   world_in_response_window))
    = result tridx_OUTCOME (globals world_in_response_window) /\
  (result tridx_RESPONSE (globals world_in_response_window) <> 0 ->
   result tridx_RESPONSE (globals (Sketch.loop sample_codes (quiet 60 1023)
                                     world_in_response_window))
     = result tridx_RESPONSE (globals world_in_response_window)).
Proof.
  apply (toe_false_lick_stays_in_response_window sample_codes (quiet 60 1023)
           world_in_response_window).
  - reflexivity.
  - vm_compute. left. reflexivity.
  - vm_compute. reflexivity.
  - vm_compute. reflexivity.
  - vm_compute. congruence.
  - reflexivity.
Defined.

(* ================================================================== *)
(** * Further properties of the code *)

Import MoreVocabulary.

(** ** [take_action] and [safe_int_convert] of MultiSens *)

Lemma find_param_None (abbrevs : list string) (argument1 : string) (i : nat) :
  ~ In argument1 abbrevs -> find_param abbrevs argument1 i = None.
Proof.
  revert i. induction abbrevs as [|a rest IH]; intros i Hn; [reflexivity|].
  cbn [find_param]. destruct (String.eqb a argument1) eqn:E.
  - apply String.eqb_eq in E. exfalso. apply Hn. left. exact E.
  - apply IH. intros H. apply Hn. right. exact H.
Qed.

(** In the table of MultiSens every abbreviation is found at its own
    index: no abbreviation occurs twice. *)
Lemma find_param_at (idx : nat) (argument1 : string) :
  nth_error param_abbrevs idx = Some argument1 ->
  find_param (firstn N_TRIAL_PARAMS param_abbrevs) argument1 O = Some idx.
Proof.
  intros H.
  do 11 (destruct idx as [|idx]; [injection H as <-; reflexivity|]).
  destruct idx; discriminate H.
Qed.

Lemma nth_upd_same {A : Type} (i : nat) (v d : A) (a : list A) :
  (i < length a)%nat -> nth i (upd i v a) d = v.
Proof.
  revert i. induction a as [|h t IH]; intros i Hi; [cbn in Hi; lia|].
  destruct i as [|i]; cbn [upd nth]; [reflexivity|].
  apply IH. cbn in Hi. lia.
Qed.

(** X1.  SET for a name that is not in the table is answered with status
    4; the only effect is the line that names the parameter: no entry of
    the table changes, whatever the value says. *)
Theorem set_unknown_parameter (argument1 argument2 : string) (g : Globals) :
  ~ In argument1 param_abbrevs ->
  take_action "SET" argument1 argument2 g
    = (4, emit (Serial_ERR_param_not_found argument1) g) /\
  param_values (snd (take_action "SET" argument1 argument2 g)) = param_values g.
Proof.
  intros Hn. unfold take_action.
  change (String.eqb "SET" "SET") with true. cbv iota.
  rewrite find_param_None by exact Hn. split; reflexivity.
Qed.

(** X2.  A command other than SET changes nothing at all: ACT is answered
    with status 6 and anything else with status 2. *)
Theorem other_commands_change_nothing
  (protocol_cmd argument1 argument2 : string) (g : Globals) :
  protocol_cmd <> "SET"%string ->
  take_action protocol_cmd argument1 argument2 g
    = (if String.eqb protocol_cmd "ACT" then 6 else 2, g).
Proof.
  intros Hn. unfold take_action.
  destruct (String.eqb protocol_cmd "SET") eqn:E.
  - apply String.eqb_eq in E. contradiction.
  - destruct (String.eqb protocol_cmd "ACT"); reflexivity.
Qed.

(** X3.  SET for the abbreviation at index [idx] with a value that
    [sscanf] converts to [n] is answered with status 0; afterwards
    [param_values[idx]] is [n], every other entry is as before, the table
    has its size and nothing is written to the serial line. *)
Theorem set_then_read (idx : nat) (argument1 argument2 : string) (n : Z)
  (g : Globals) :
  nth_error param_abbrevs idx = Some argument1 ->
  sscanf_ld argument2 0 = (1, n) ->
  length (param_values g) = N_TRIAL_PARAMS ->
  fst (take_action "SET" argument1 argument2 g) = 0 /\
  param idx (snd (take_action "SET" argument1 argument2 g)) = n /\
  (forall j, j <> idx ->
     param j (snd (take_action "SET" argument1 argument2 g)) = param j g) /\
  length (param_values (snd (take_action "SET" argument1 argument2 g)))
    = N_TRIAL_PARAMS /\
  output (snd (take_action "SET" argument1 argument2 g)) = output g.
Proof.
  intros Hidx Hscan Hlen.
  assert (Hlt : (idx < length (param_values g))%nat).
  { rewrite Hlen.
    apply (proj1 (nth_error_Some param_abbrevs idx)). congruence. }
  unfold take_action.
  change (String.eqb "SET" "SET") with true. cbv iota.
  rewrite (find_param_at idx argument1 Hidx).
  unfold safe_int_convert. rewrite Hscan.
  change (1 =? 1) with true. cbn [fst snd negb Z.eqb].
  unfold param. cbn [param_values set_param_values output].
  repeat split.
  - apply nth_upd_same. exact Hlt.
  - intros j Hj. apply nth_upd_other. congruence.
  - rewrite length_upd. exact Hlen.
Qed.

(** X4.  Whatever the command, [take_action] answers with one of the
    statuses 0, 2, 4, 5, 6, keeps the size of the parameter table, only
    adds to what was written, and touches neither the results, nor
    [next_state], nor the release flag, nor the lick memory. *)
Theorem take_action_touches_parameters_only
  (protocol_cmd argument1 argument2 : string) (g : Globals) :
  In (fst (take_action protocol_cmd argument1 argument2 g)) [0; 2; 4; 5; 6] /\
  length (param_values (snd (take_action protocol_cmd argument1 argument2 g)))
    = length (param_values g) /\
  (exists written,
     output (snd (take_action protocol_cmd argument1 argument2 g))
       = output g ++ written) /\
  results_values (snd (take_action protocol_cmd argument1 argument2 g))
    = results_values g /\
  next_state (snd (take_action protocol_cmd argument1 argument2 g)) = next_state g /\
  flag_start_trial (snd (take_action protocol_cmd argument1 argument2 g))
    = flag_start_trial g /\
  sticky_licking (snd (take_action protocol_cmd argument1 argument2 g))
    = sticky_licking g.
Proof.
  unfold take_action, safe_int_convert.
  destruct (String.eqb protocol_cmd "SET").
  - destruct (find_param _ _ _) as [idx|].
    + destruct (sscanf_ld argument2 0) as [status conversion_var].
      destruct (status =? 1); cbn.
      * repeat split; auto. rewrite length_upd. reflexivity.
        exists []. rewrite app_nil_r. reflexivity.
      * repeat split; auto 10. eexists. rewrite <- app_assoc. reflexivity.
    + cbn. repeat split; auto 10. eexists. reflexivity.
  - destruct (String.eqb protocol_cmd "ACT"); cbn; repeat split; auto 10;
      exists []; rewrite app_nil_r; reflexivity.
Qed.

(** ** The older sketch *)

Lemma int_range (z : Z) : -32768 <= int z < 32768.
Proof.
  unfold int. pose proof (Z.mod_pos_bound (z + 32768) 65536 ltac:(lia)). lia.
Qed.

Lemma ulong_small (z : Z) : 0 <= z < 4294967296 -> ulong z = z.
Proof. intros H. unfold ulong. apply Z.mod_small. exact H. Qed.

Lemma ulong_negative (z : Z) : -4294967296 <= z < 0 -> ulong z = z + 4294967296.
Proof.
  intros H. unfold ulong. symmetry.
  apply (Z.mod_unique z 4294967296 (-1) (z + 4294967296)); lia.
Qed.

Lemma ulong_int_nonzero (z : Z) : int z <> 0 -> ulong (int z) <> 0.
Proof.
  intros Hnz. pose proof (int_range z) as Hr.
  destruct (Z_lt_le_dec (int z) 0).
  - rewrite ulong_negative by lia. lia.
  - rewrite ulong_small by lia. exact Hnz.
Qed.

Lemma int_small (n : Z) : -32768 <= n < 32768 -> int n = n.
Proof. intros H. unfold int. rewrite Z.mod_small by lia. lia. Qed.

Lemma int_multiple (n : Z) : n mod 65536 = 0 -> int n = 0.
Proof.
  intros H. unfold int.
  rewrite <- Zplus_mod_idemp_l, H. reflexivity.
Qed.

(** X5.  In the older sketch no command sets ITI to 0: an ITI that is not
    0 is not 0 after [take_action], whatever the command and the value,
    and a SET ITI answered with status 0 has stored a value that is not
    0. *)
Theorem interval_never_set_to_zero
  (protocol_cmd argument1 argument2 : string)
  (trial_params : SimpleSketch.TRIAL_PARAMS_TYPE) :
  (SimpleSketch.inter_trial_interval trial_params <> 0 ->
   SimpleSketch.inter_trial_interval
     (snd (SimpleSketch.take_action protocol_cmd argument1 argument2 trial_params))
     <> 0) /\
  (fst (SimpleSketch.take_action "SET" "ITI" argument2 trial_params) = 0 ->
   SimpleSketch.inter_trial_interval
     (snd (SimpleSketch.take_action "SET" "ITI" argument2 trial_params))
     = ulong (int (toInt argument2)) /\
   SimpleSketch.inter_trial_interval
     (snd (SimpleSketch.take_action "SET" "ITI" argument2 trial_params))
     <> 0).
Proof.
  split.
  - intros Hnz. unfold SimpleSketch.take_action, SimpleSketch.safe_int_convert.
    destruct (String.eqb protocol_cmd "SET"); [|exact Hnz].
    destruct (String.eqb argument1 "ITI"); [|exact Hnz].
    destruct (int (toInt argument2) =? 0) eqn:E; cbn; [exact Hnz|].
    apply ulong_int_nonzero. apply Z.eqb_neq. exact E.
  - unfold SimpleSketch.take_action, SimpleSketch.safe_int_convert.
    change (String.eqb "SET" "SET") with true.
    change (String.eqb "ITI" "ITI") with true. cbv iota.
    destruct (int (toInt argument2) =? 0) eqn:E; cbn; [discriminate|].
    intros _. split; [reflexivity|].
    apply ulong_int_nonzero. apply Z.eqb_neq. exact E.
Qed.

(** X6.  SET ITI in the older sketch goes through a 16 bit [int]: a value
    from 1 to 32767 is stored as it is; a value from -32768 to -1 is
    stored as that value plus 2^32; and a value that is a multiple of
    65536, such as 0 or 65536, is a conversion error (status 5) that
    leaves ITI as it was. *)
Theorem set_interval_through_int (argument2 : string) (n : Z)
  (trial_params : SimpleSketch.TRIAL_PARAMS_TYPE) :
  scan_long argument2 = Some n ->
  (0 < n < 32768 ->
   SimpleSketch.take_action "SET" "ITI" argument2 trial_params
     = (0, SimpleSketch.mkTrialParams n)) /\
  (-32768 <= n < 0 ->
   SimpleSketch.take_action "SET" "ITI" argument2 trial_params
     = (0, SimpleSketch.mkTrialParams (n + 4294967296))) /\
  (n mod 65536 = 0 ->
   SimpleSketch.take_action "SET" "ITI" argument2 trial_params
     = (5, trial_params)).
Proof.
  intros Hscan.
  unfold SimpleSketch.take_action, SimpleSketch.safe_int_convert.
  change (String.eqb "SET" "SET") with true.
  change (String.eqb "ITI" "ITI") with true. cbv iota.
  unfold toInt. rewrite Hscan.
  repeat split.
  - intros H. rewrite int_small by lia.
    destruct (n =? 0) eqn:E; [apply Z.eqb_eq in E; lia|].
    cbn. rewrite ulong_small by lia. reflexivity.
  - intros H. rewrite int_small by lia.
    destruct (n =? 0) eqn:E; [apply Z.eqb_eq in E; lia|].
    cbn. rewrite ulong_negative by lia. reflexivity.
  - intros H. rewrite int_multiple by exact H. cbn.
    destruct trial_params. reflexivity.
Qed.

Section SimpleLoopFacts.

Variable handle_chat :
  string -> SimpleSketch.TRIAL_PARAMS_TYPE -> bool ->
  Z * SimpleSketch.TRIAL_PARAMS_TYPE * bool * (string * string * string).

(** A pass in INTER_TRIAL_INTERVAL on which no line has arrived. *)
Lemma quiet_pass_in_interval (time : Z) (s : SimpleLoop.Sketch) :
  SimpleLoop.current_state s = SimpleLoop.INTER_TRIAL_INTERVAL ->
  let armed := if SimpleLoop.state_timer s =? SimpleLoop.NO_TIMER
               then ulong (time + SimpleSketch.inter_trial_interval
                                    (SimpleLoop.trial_params s))
               else SimpleLoop.state_timer s in
  let s' := SimpleLoop.loop handle_chat time "" s in
  SimpleLoop.trial_params s' = SimpleLoop.trial_params s /\
  (armed < time ->
   SimpleLoop.current_state s' = SimpleLoop.WAIT_FOR_NEXT_TRIAL /\
   SimpleLoop.state_timer s' = SimpleLoop.NO_TIMER /\
   last (SimpleLoop.output s') (SimpleLoop.Serial_DBG 0)
     = SimpleLoop.Serial_ST_CHG time SimpleLoop.INTER_TRIAL_INTERVAL
         SimpleLoop.WAIT_FOR_NEXT_TRIAL) /\
  (time <= armed ->
   SimpleLoop.current_state s' = SimpleLoop.INTER_TRIAL_INTERVAL /\
   SimpleLoop.state_timer s' = armed).
Proof.
  intros Hcur armed s'. subst armed s'.
  destruct s as [cur tp sp fl st out]. cbn in Hcur. subst cur.
  unfold SimpleLoop.loop, SimpleLoop.loop_chat, SimpleLoop.loop_state_dependent.
  change (SimpleLoop.NO_TIMER) with (ulong (-1)).
  cbn -[ulong Z.ltb Z.eqb Z.leb Z.add].
  destruct (sp <=? time); cbn -[ulong Z.ltb Z.eqb Z.leb Z.add];
    destruct (st =? ulong (-1)); cbn -[ulong Z.ltb Z.eqb Z.leb Z.add];
    match goal with |- context [?a <? time] => destruct (a <? time) eqn:E end;
    cbn -[ulong Z.ltb Z.eqb Z.leb Z.add];
    (split; [reflexivity|]); split; intros H; try lia;
    repeat split; try reflexivity; apply last_last.
Qed.

(** X7.  The wait of INTER_TRIAL_INTERVAL in the older sketch.  Entered at
    [t0] with the timer not running and an ITI of [d], with [t0 + d] below
    the value that stands for "not running", the sketch stays in
    INTER_TRIAL_INTERVAL over every pass whose time is at most [t0 + d],
    even when [d] is 0; the first pass whose time is strictly later leads
    to WAIT_FOR_NEXT_TRIAL, stops the timer and announces the change. *)
Theorem interval_wait (t0 d : Z) (times : list Z) (s : SimpleLoop.Sketch) :
  SimpleLoop.current_state s = SimpleLoop.INTER_TRIAL_INTERVAL ->
  SimpleLoop.state_timer s = SimpleLoop.NO_TIMER ->
  SimpleSketch.inter_trial_interval (SimpleLoop.trial_params s) = d ->
  is_ulong t0 -> 0 <= d -> t0 + d < SimpleLoop.NO_TIMER ->
  Forall (fun t => t <= t0 + d) times ->
  SimpleLoop.current_state (SimpleLoop.quiet_passes handle_chat (t0 :: times) s)
    = SimpleLoop.INTER_TRIAL_INTERVAL /\
  SimpleLoop.state_timer (SimpleLoop.quiet_passes handle_chat (t0 :: times) s)
    = t0 + d /\
  (forall now, t0 + d < now ->
     SimpleLoop.current_state
       (SimpleLoop.loop handle_chat now ""
          (SimpleLoop.quiet_passes handle_chat (t0 :: times) s))
       = SimpleLoop.WAIT_FOR_NEXT_TRIAL /\
     SimpleLoop.state_timer
       (SimpleLoop.loop handle_chat now ""
          (SimpleLoop.quiet_passes handle_chat (t0 :: times) s))
       = SimpleLoop.NO_TIMER /\
     last (SimpleLoop.output
             (SimpleLoop.loop handle_chat now ""
                (SimpleLoop.quiet_passes handle_chat (t0 :: times) s)))
          (SimpleLoop.Serial_DBG 0)
       = SimpleLoop.Serial_ST_CHG now SimpleLoop.INTER_TRIAL_INTERVAL
           SimpleLoop.WAIT_FOR_NEXT_TRIAL).
Proof.
  intros Hcur Htimer Hd Hr Hd0 Hfit Hall.
  assert (Hsent : SimpleLoop.NO_TIMER = 4294967295) by reflexivity.
  unfold is_ulong in Hr.
  (* the first pass starts the timer *)
  assert (H1 : SimpleLoop.current_state (SimpleLoop.loop handle_chat t0 "" s)
                 = SimpleLoop.INTER_TRIAL_INTERVAL /\
               SimpleLoop.state_timer (SimpleLoop.loop handle_chat t0 "" s) = t0 + d /\
               SimpleSketch.inter_trial_interval
                 (SimpleLoop.trial_params (SimpleLoop.loop handle_chat t0 "" s)) = d).
  { destruct (quiet_pass_in_interval t0 s Hcur) as [Hp [_ Hstay]].
    rewrite Htimer, Z.eqb_refl, Hd in Hstay.
    rewrite ulong_small in Hstay by lia.
    destruct Hstay as [Hc Ht]; [lia|]. rewrite Hp. auto. }
  (* the later passes leave it running *)
  assert (Hrun : forall ts s1,
            Forall (fun t => t <= t0 + d) ts ->
            SimpleLoop.current_state s1 = SimpleLoop.INTER_TRIAL_INTERVAL ->
            SimpleLoop.state_timer s1 = t0 + d ->
            SimpleLoop.current_state
              (fold_left (fun s time => SimpleLoop.loop handle_chat time "" s) ts s1)
              = SimpleLoop.INTER_TRIAL_INTERVAL /\
            SimpleLoop.state_timer
              (fold_left (fun s time => SimpleLoop.loop handle_chat time "" s) ts s1)
              = t0 + d).
  { induction ts as [|t ts IH]; intros s1 Hts Hc Ht; [split; assumption|].
    apply Forall_cons_iff in Hts. destruct Hts as [Hle Hrest].
    destruct (quiet_pass_in_interval t s1 Hc) as [_ [_ Hstay]].
    rewrite Ht in Hstay.
    destruct (t0 + d =? SimpleLoop.NO_TIMER) eqn:E; [apply Z.eqb_eq in E; lia|].
    destruct Hstay as [Hc' Ht']; [lia|].
    cbn [fold_left]. apply IH; assumption. }
  destruct H1 as [Hc1 [Ht1 _]].
  unfold SimpleLoop.quiet_passes. cbn [fold_left].
  destruct (Hrun times _ Hall Hc1 Ht1) as [Hc2 Ht2].
  split; [exact Hc2|]. split; [exact Ht2|].
  intros now Hnow.
  destruct (quiet_pass_in_interval now _ Hc2) as [_ [Hgo _]].
  rewrite Ht2 in Hgo.
  destruct (t0 + d =? SimpleLoop.NO_TIMER) eqn:E; [apply Z.eqb_eq in E; lia|].
  apply Hgo. exact Hnow.
Qed.

(** X8.  Whatever arrives and whatever [handle_chat] does, a pass of the
    older sketch moves along an edge of TRIAL_START -> INTER_TRIAL_INTERVAL
    -> WAIT_FOR_NEXT_TRIAL -> TRIAL_START or stays (TRIAL_START never
    stays), and it keeps the timer stopped outside INTER_TRIAL_INTERVAL,
    so that every interval is timed afresh. *)
Theorem simple_sketch_edges (time : Z) (received_chat : string)
  (s : SimpleLoop.Sketch) :
  simple_edge (SimpleLoop.current_state s)
    (SimpleLoop.current_state (SimpleLoop.loop handle_chat time received_chat s))
    = true /\
  (timer_idle s ->
   timer_idle (SimpleLoop.loop handle_chat time received_chat s)).
Proof.
  unfold timer_idle, SimpleLoop.loop.
  set (s0 := if SimpleLoop.speak_at s <=? time then _ else s).
  assert (H0 : SimpleLoop.current_state s0 = SimpleLoop.current_state s /\
               SimpleLoop.state_timer s0 = SimpleLoop.state_timer s).
  { subst s0. destruct (SimpleLoop.speak_at s <=? time); split; reflexivity. }
  destruct H0 as [Hc0 Ht0].
  set (s1 := SimpleLoop.loop_chat handle_chat time received_chat s0).
  assert (H1 : SimpleLoop.current_state s1 = SimpleLoop.current_state s /\
               SimpleLoop.state_timer s1 = SimpleLoop.state_timer s).
  { subst s1. unfold SimpleLoop.loop_chat.
    destruct (0 <? String.length received_chat)%nat; [|split; assumption].
    destruct (handle_chat _ _ _) as [[[status params] flag] [[cmd a1] a2]].
    destruct (negb (status =? 0)); [split; assumption|].
    destruct (0 <? String.length cmd)%nat; [|split; assumption].
    destruct (SimpleSketch.take_action _ _ _ _) as [status' params'].
    destruct (negb (status' =? 0)); split; assumption. }
  destruct H1 as [Hc1 Ht1]. clearbody s1. clear s0 Hc0 Ht0.
  unfold SimpleLoop.loop_state_dependent. rewrite <- Hc1, <- Ht1.
  clear Hc1 Ht1. destruct s1 as [cur tp sp fl st out].
  destruct cur; cbn -[ulong Z.ltb Z.eqb Z.add].
  - split; [reflexivity|]. intros _ H. congruence.
  - destruct (st =? ulong (-1)); cbn -[ulong Z.ltb Z.eqb Z.add];
      match goal with |- context [?a <? time] => destruct (a <? time) end;
      cbn -[ulong Z.ltb Z.eqb Z.add];
      (split; [reflexivity|]); intros Hi H; try reflexivity; congruence.
  - destruct fl; cbn -[ulong Z.ltb Z.eqb Z.add];
      (split; [reflexivity|]); intros Hi _; apply Hi; discriminate.
Qed.

End SimpleLoopFacts.

(** ** The state machine of MultiSens *)

Lemma moves_to_trans (targets : list STATE_TYPE) (a b c : Globals) :
  moves_to targets a b -> moves_to targets b c -> moves_to targets a c.
Proof.
  unfold moves_to. intros [H1|H1] [H2|H2]; try (right; assumption).
  - left. congruence.
  - right. rewrite H2. exact H1.
Qed.

Ltac hooks_by_cases :=
  repeat split; intros this g;
  cbn [s_setup TimedStateLib.loop s_finish update
       StimPeriod_vtable ResponseWindow_vtable StateResponseWindow_vtable
       StateInterTrialInterval_vtable StatePostRewardPause_vtable
       StateErrorTimeout_vtable];
  unfold StimPeriod_s_setup, StimPeriod_loop, StimPeriod_s_finish,
    StateResponseWindow_s_setup, StateResponseWindow_loop,
    StateResponseWindow_s_finish, StateResponseWindow_update,
    StateInterTrialInterval_s_setup, StateInterTrialInterval_s_finish,
    StatePostRewardPause_s_finish, StateErrorTimeout_s_setup,
    StateErrorTimeout_s_finish, nothing;
  repeat break_if; cbn.

Lemma StimPeriod_moves :
  class_keeps (moves_to [RESPONSE_WINDOW; ERROR]) StimPeriod_vtable.
Proof. hooks_by_cases; unfold moves_to; cbn; tauto. Qed.

Lemma ResponseWindow_moves (K : Codes) (lick : Globals -> bool) :
  class_keeps (moves_to [REWARD; ERROR; INTER_TRIAL_INTERVAL])
    (ResponseWindow_vtable K lick).
Proof. hooks_by_cases; unfold moves_to; cbn; tauto. Qed.

Lemma StateInterTrialInterval_moves :
  class_keeps (moves_to [WAIT_TO_START_TRIAL]) StateInterTrialInterval_vtable.
Proof. hooks_by_cases; unfold moves_to; cbn; tauto. Qed.

Lemma StatePostRewardPause_moves :
  class_keeps (moves_to [RESPONSE_WINDOW]) StatePostRewardPause_vtable.
Proof. hooks_by_cases; unfold moves_to; cbn; tauto. Qed.

Lemma StateErrorTimeout_moves :
  class_keeps (moves_to [INTER_TRIAL_INTERVAL]) StateErrorTimeout_vtable.
Proof. hooks_by_cases; unfold moves_to; cbn; tauto. Qed.

(** X9.  Whatever a pass of [loop] reads, the state after it is the state
    before it or a successor of it in the graph of the protocol:
    WAIT_TO_START_TRIAL -> TRIAL_START -> STIM_PERIOD -> RESPONSE_WINDOW or
    ERROR; RESPONSE_WINDOW -> REWARD, ERROR or INTER_TRIAL_INTERVAL; REWARD
    -> POST_REWARD_PAUSE -> RESPONSE_WINDOW; ERROR -> INTER_TRIAL_INTERVAL
    -> WAIT_TO_START_TRIAL.  TRIAL_START and REWARD last one pass. *)
Theorem pass_follows_the_graph (K : Codes) (inp : TickInput) (w : World) :
  edge (current_state w) (current_state (Sketch.loop K inp w)) = true.
Proof.
  destruct (loop_every_pass_frame inp w) as [_ [Fnext _]].
  unfold Sketch.loop. cbv zeta.
  destruct (loop_update_state_frame inp
              (loop_state_dependent K (millis_loop inp) (loop_every_pass inp w) w))
    as [Ucur _].
  rewrite Ucur. clear Ucur.
  set (g := loop_every_pass inp w) in *.
  unfold loop_state_dependent.
  destruct (current_state w) eqn:Ecur; cbn [globals set_globals].
  - break_if; cbn; [reflexivity | rewrite Fnext; reflexivity].
  - reflexivity.
  - destruct (run_keeps (moves_to [RESPONSE_WINDOW; ERROR]) StimPeriod_vtable
                (millis_loop inp) (stim_period w) g
                (moves_to_trans _) StimPeriod_moves) as [H|H].
    + rewrite H, Fnext. reflexivity.
    + cbn in H. destruct H as [<-|[<-|[]]]; reflexivity.
  - cbn [FAKE_RESPONDER update StateResponseWindow_vtable ResponseWindow_vtable
         StateResponseWindow_update globals set_globals].
    match goal with |- context [run ?v ?t ?this g] =>
      destruct (run_keeps (moves_to [REWARD; ERROR; INTER_TRIAL_INTERVAL]) v
                  t this g (moves_to_trans _) (ResponseWindow_moves K _)) as [H|H]
    end.
    + rewrite H, Fnext. reflexivity.
    + cbn in H. destruct H as [<-|[<-|[<-|[]]]]; reflexivity.
  - reflexivity.
  - destruct (run_keeps (moves_to [RESPONSE_WINDOW]) StatePostRewardPause_vtable
                (millis_loop inp) (state_post_reward_pause w) g
                (moves_to_trans _) StatePostRewardPause_moves) as [H|H].
    + rewrite H, Fnext. reflexivity.
    + cbn in H. destruct H as [<-|[]]; reflexivity.
  - destruct (run_keeps (moves_to [INTER_TRIAL_INTERVAL]) StateErrorTimeout_vtable
                (millis_loop inp) (state_error_timeout w) g
                (moves_to_trans _) StateErrorTimeout_moves) as [H|H].
    + rewrite H, Fnext. reflexivity.
    + cbn in H. destruct H as [<-|[]]; reflexivity.
  - destruct (run_keeps (moves_to [WAIT_TO_START_TRIAL]) StateInterTrialInterval_vtable
                (millis_loop inp) (state_inter_trial_interval w) g
                (moves_to_trans _) StateInterTrialInterval_moves) as [H|H].
    + rewrite H, Fnext. reflexivity.
    + cbn in H. destruct H as [<-|[]]; reflexivity.
Qed.

(** What the last part of [loop] leaves alone: the state objects. *)
Lemma loop_update_state_objects (inp : TickInput) (w : World) :
  stim_period (loop_update_state inp w) = stim_period w /\
  srw (loop_update_state inp w) = srw w /\
  sfrw (loop_update_state inp w) = sfrw w /\
  state_inter_trial_interval (loop_update_state inp w) = state_inter_trial_interval w /\
  state_error_timeout (loop_update_state inp w) = state_error_timeout w /\
  state_post_reward_pause (loop_update_state inp w) = state_post_reward_pause w.
Proof. unfold loop_update_state. repeat split. Qed.

(** Which state objects a pass leaves alone. *)
Lemma pass_objects (K : Codes) (inp : TickInput) (w : World) :
  (current_state w <> STIM_PERIOD ->
   stim_period (Sketch.loop K inp w) = stim_period w) /\
  (current_state w <> RESPONSE_WINDOW ->
   srw (Sketch.loop K inp w) = srw w) /\
  sfrw (Sketch.loop K inp w) = sfrw w /\
  (current_state w <> INTER_TRIAL_INTERVAL ->
   state_inter_trial_interval (Sketch.loop K inp w) = state_inter_trial_interval w) /\
  (current_state w <> ERROR ->
   state_error_timeout (Sketch.loop K inp w) = state_error_timeout w) /\
  (current_state w <> POST_REWARD_PAUSE ->
   state_post_reward_pause (Sketch.loop K inp w) = state_post_reward_pause w).
Proof.
  unfold Sketch.loop. cbv zeta.
  destruct (loop_update_state_objects inp
              (loop_state_dependent K (millis_loop inp) (loop_every_pass inp w) w))
    as [E1 [E2 [E3 [E4 [E5 E6]]]]].
  rewrite E1, E2, E3, E4, E5, E6.
  unfold loop_state_dependent.
  destruct (current_state w); repeat split; intros; try congruence;
    try break_if; reflexivity.
Qed.

(** X10.  A pass of [loop] runs the object of the current state and no
    other: every other state object is exactly as before, and the object
    of the fake response window is never touched. *)
Theorem pass_runs_one_object (K : Codes) (inp : TickInput) (w : World) :
  (current_state w <> STIM_PERIOD ->
   stim_period (Sketch.loop K inp w) = stim_period w) /\
  (current_state w <> RESPONSE_WINDOW ->
   srw (Sketch.loop K inp w) = srw w) /\
  sfrw (Sketch.loop K inp w) = sfrw w /\
  (current_state w <> INTER_TRIAL_INTERVAL ->
   state_inter_trial_interval (Sketch.loop K inp w) = state_inter_trial_interval w) /\
  (current_state w <> ERROR ->
   state_error_timeout (Sketch.loop K inp w) = state_error_timeout w) /\
  (current_state w <> POST_REWARD_PAUSE ->
   state_post_reward_pause (Sketch.loop K inp w) = state_post_reward_pause w).
Proof. exact (pass_objects K inp w). Qed.

(** ** The response window over several passes *)

(** One call of [run] on a response window: either a hit, which counts a
    reward and asks for REWARD, or the count is as before and REWARD is
    not asked for. *)
Lemma ResponseWindow_run_count (K : Codes) (lick : Globals -> bool)
  (time : Z) (this : StateResponseWindow) (g : Globals) :
  next_state g <> REWARD ->
  (my_rewards_this_trial (ext (obj (run (ResponseWindow_vtable K lick) time this g)))
     = uint (my_rewards_this_trial (ext this) + 1) /\
   next_state (glob (run (ResponseWindow_vtable K lick) time this g)) = REWARD) \/
  (my_rewards_this_trial (ext (obj (run (ResponseWindow_vtable K lick) time this g)))
     = my_rewards_this_trial (ext this) /\
   next_state (glob (run (ResponseWindow_vtable K lick) time this g)) <> REWARD).
Proof.
  intros Hn. set (v := ResponseWindow_vtable K lick).
  assert (Hfin : forall (a : StateResponseWindow) t,
            my_rewards_this_trial (ext (set_timer t (fst (s_finish v a g))))
              = my_rewards_this_trial (ext a) /\
            next_state (snd (s_finish v a g)) <> REWARD).
  { intros a t. cbn [s_finish v ResponseWindow_vtable].
    unfold StateResponseWindow_s_finish. repeat break_if; cbn; split;
      try reflexivity; congruence. }
  assert (Hloop : forall (a : StateResponseWindow),
            (my_rewards_this_trial (ext (fst (TimedStateLib.loop v a g)))
               = uint (my_rewards_this_trial (ext a) + 1) /\
             next_state (snd (TimedStateLib.loop v a g)) = REWARD) \/
            (my_rewards_this_trial (ext (fst (TimedStateLib.loop v a g)))
               = my_rewards_this_trial (ext a) /\
             next_state (snd (TimedStateLib.loop v a g)) <> REWARD)).
  { intros a. cbn [TimedStateLib.loop v ResponseWindow_vtable].
    unfold StateResponseWindow_loop. repeat break_if; cbn;
      try (left; split; reflexivity);
      right; (split; [reflexivity | congruence]). }
  destruct (Z.eq_dec (timer this) 0) as [E0|E0].
  - destruct (run_inactive_eq v time this g E0) as [[_ E] | [_ E]]; rewrite E;
      cbn [obj glob fst snd].
    + right. apply (Hfin (fst (activated v time this g)) 0).
    + apply (Hloop (fst (activated v time this g))).
  - destruct (run_active_eq v time this g E0) as [[_ E] | [_ [_ E]]]; rewrite E;
      cbn [obj glob fst snd].
    + right. apply (Hfin (set_time_of_last_call time this) 0).
    + apply (Hloop (set_time_of_last_call time this)).
Qed.

Lemma STATE_TYPE_eqb_eq (a b : STATE_TYPE) : STATE_TYPE_eqb a b = true <-> a = b.
Proof. destruct a, b; cbn; split; intros H; congruence. Qed.

(** X11.  The count of rewards of a trial is never reset: a pass of [loop]
    adds 1 to [my_rewards_this_trial] (as an [unsigned int]) when it goes
    from RESPONSE_WINDOW to REWARD, and every other pass, TRIAL_START
    included, leaves the count as it is. *)
Theorem reward_count_is_never_reset (K : Codes) (inp : TickInput) (w : World) :
  my_rewards_this_trial (ext (srw (Sketch.loop K inp w)))
  = if STATE_TYPE_eqb (current_state w) RESPONSE_WINDOW
       && STATE_TYPE_eqb (current_state (Sketch.loop K inp w)) REWARD
    then uint (my_rewards_this_trial (ext (srw w)) + 1)
    else my_rewards_this_trial (ext (srw w)).
Proof.
  destruct (STATE_TYPE_eqb (current_state w) RESPONSE_WINDOW) eqn:Ecur.
  - apply STATE_TYPE_eqb_eq in Ecur.
    rewrite (loop_in_response_window K inp w Ecur). cbv zeta.
    destruct (loop_every_pass_frame inp w) as [_ [Fnext _]].
    set (g := loop_every_pass inp w) in *.
    set (this := fst (update (StateResponseWindow_vtable K) (srw w) g)).
    assert (Hn : next_state g <> REWARD) by congruence.
    match goal with |- context [loop_update_state inp ?w1] =>
      destruct (loop_update_state_frame inp w1) as [Ucur _];
      destruct (loop_update_state_objects inp w1) as [_ [Usrw _]]
    end.
    rewrite Ucur, Usrw. cbn [globals set_globals srw set_srw andb].
    destruct (ResponseWindow_run_count K StateResponseWindow_set_licking_variables
                (millis_loop inp) this g Hn) as [[Hc Hs] | [Hc Hs]].
    + unfold StateResponseWindow_vtable. rewrite Hs, Hc. reflexivity.
    + unfold StateResponseWindow_vtable. rewrite Hc.
      destruct (STATE_TYPE_eqb _ REWARD) eqn:E; [|reflexivity].
      apply STATE_TYPE_eqb_eq in E. contradiction.
  - cbn [andb].
    destruct (pass_objects K inp w) as [_ [H _]]. rewrite H; [reflexivity|].
    intros E. rewrite E in Ecur. discriminate.
Qed.

(** A call of [run] that reaches [loop] with the rewards at MRT leaves the
    window active, flagged, and asking for INTER_TRIAL_INTERVAL. *)
Lemma max_rewards_run (K : Codes) (lick : Globals -> bool)
  (time : Z) (this : StateResponseWindow) (g : Globals) :
  is_ulong time ->
  In Loop (trace (run (ResponseWindow_vtable K lick) time this g)) ->
  param tpidx_MRT g <= my_rewards_this_trial (ext this) ->
  flag_stop (obj (run (ResponseWindow_vtable K lick) time this g)) = true /\
  timer (obj (run (ResponseWindow_vtable K lick) time this g)) <> 0 /\
  next_state (glob (run (ResponseWindow_vtable K lick) time this g))
    = INTER_TRIAL_INTERVAL.
Proof.
  intros Hr Hloop Hmax. set (v := ResponseWindow_vtable K lick) in *.
  destruct (Z.eq_dec (timer this) 0) as [E0|E0].
  - destruct (run_inactive_eq v time this g E0) as [[_ E] | [Hlt E]];
      rewrite E in Hloop |- *.
    + cbn in Hloop. destruct Hloop as [H|[H|[]]]; discriminate.
    + cbn [TimedStateLib.loop v ResponseWindow_vtable].
      rewrite ResponseWindow_loop_max_rewards by exact Hmax.
      unfold deadline in Hlt. unfold is_ulong in Hr.
      cbn in Hlt |- *. repeat split; lia.
  - destruct (run_active_eq v time this g E0) as [[_ E] | [_ [_ E]]];
      rewrite E in Hloop |- *.
    + cbn in Hloop. destruct Hloop as [H|[]]; discriminate.
    + cbn [TimedStateLib.loop v ResponseWindow_vtable].
      rewrite ResponseWindow_loop_max_rewards by exact Hmax.
      cbn. repeat split. exact E0.
Qed.

(** A call of [run] on an active object whose flag is set runs [s_finish]
    and nothing else. *)
Lemma flagged_run {X G : Type} (v : vtable X G)
  (time : Z) (this : TimedState X) (g : G) :
  timer this <> 0 -> flag_stop this = true ->
  run v time this g
  = (set_timer 0 (fst (s_finish v (set_time_of_last_call time this) g)),
     snd (s_finish v (set_time_of_last_call time this) g), [Finish]).
Proof.
  intros Ht Hf.
  destruct (run_active_eq v time this g Ht) as [[_ E] | [Hf' _]];
    [exact E | congruence].
Qed.

(** X12.  The stop at the maximum of rewards outlives the window.  When a
    pass in RESPONSE_WINDOW reaches [loop] with the rewards at MRT, the
    sketch goes to INTER_TRIAL_INTERVAL while the window object stays
    active with its flag set.  On the next pass in RESPONSE_WINDOW that
    finds the object so, [run] calls [s_finish] only, without [s_setup]
    and without sampling a lick: with the RESPONSE unset, as TRIAL_START
    leaves it, the response is recorded as NOGO, the outcome as a correct
    reject or a miss, and the sketch goes to INTER_TRIAL_INTERVAL at
    once. *)
Theorem stop_ends_the_next_window (K : Codes)
  (inpA inpB : TickInput) (w w2 : World) :
  current_state w = RESPONSE_WINDOW ->
  is_ulong (millis_loop inpA) ->
  In Loop (trace (run (StateResponseWindow_vtable K) (millis_loop inpA)
                    (fst (update (StateResponseWindow_vtable K) (srw w)
                            (loop_every_pass inpA w)))
                    (loop_every_pass inpA w))) ->
  param tpidx_MRT (loop_every_pass inpA w) <= my_rewards_this_trial (ext (srw w)) ->
  current_state w2 = RESPONSE_WINDOW ->
  srw w2 = srw (Sketch.loop K inpA w) ->
  length (results_values (globals w2)) = N_TRIAL_RESULTS ->
  result tridx_RESPONSE (globals w2) = 0 ->
  current_state (Sketch.loop K inpA w) = INTER_TRIAL_INTERVAL /\
  flag_stop (srw (Sketch.loop K inpA w)) = true /\
  timer (srw (Sketch.loop K inpA w)) <> 0 /\
  trace (run (StateResponseWindow_vtable K) (millis_loop inpB)
           (fst (update (StateResponseWindow_vtable K) (srw w2)
                   (loop_every_pass inpB w2)))
           (loop_every_pass inpB w2))
    = [Finish] /\
  current_state (Sketch.loop K inpB w2) = INTER_TRIAL_INTERVAL /\
  result tridx_RESPONSE (globals (Sketch.loop K inpB w2)) = NOGO K /\
  result tridx_OUTCOME (globals (Sketch.loop K inpB w2))
    = (if param tpidx_REW (loop_every_pass inpB w2) =? NOGO K
       then OUTCOME_CR K else OUTCOME_MISS K) /\
  timer (srw (Sketch.loop K inpB w2)) = 0.
Proof.
  intros Hcur Hr Hloop Hmax Hcur2 Hsrw Hlen Hresp.
  (* the pass that stops *)
  assert (HA : current_state (Sketch.loop K inpA w) = INTER_TRIAL_INTERVAL /\
               flag_stop (srw (Sketch.loop K inpA w)) = true /\
               timer (srw (Sketch.loop K inpA w)) <> 0).
  { rewrite (loop_in_response_window K inpA w Hcur). cbv zeta.
    match goal with |- context [loop_update_state inpA ?w1] =>
      destruct (loop_update_state_frame inpA w1) as [Ucur _];
      destruct (loop_update_state_objects inpA w1) as [_ [Usrw _]]
    end.
    rewrite Ucur, Usrw. cbn [globals set_globals srw set_srw].
    destruct (max_rewards_run K StateResponseWindow_set_licking_variables
                (millis_loop inpA) _ _ Hr Hloop Hmax) as [Hf [Ht Hn]].
    auto. }
  destruct HA as [HA1 [HA2 HA3]].
  split; [exact HA1|]. split; [exact HA2|]. split; [exact HA3|].
  (* the next pass in the window *)
  rewrite <- Hsrw in HA2, HA3.
  destruct (loop_every_pass_frame inpB w2) as [Fres [Fnext _]].
  rewrite (loop_in_response_window K inpB w2 Hcur2). cbv zeta.
  set (g := loop_every_pass inpB w2) in *.
  set (v := StateResponseWindow_vtable K).
  set (this := fst (update v (srw w2) g)).
  assert (Ht : timer this <> 0) by exact HA3.
  assert (Hf : flag_stop this = true) by exact HA2.
  rewrite (flagged_run v (millis_loop inpB) this g Ht Hf).
  match goal with |- context [loop_update_state inpB ?w1] =>
    destruct (loop_update_state_frame inpB w1) as [Ucur [_ Ures]];
    destruct (loop_update_state_objects inpB w1) as [_ [Usrw _]]
  end.
  unfold result. rewrite Ucur, Ures, Usrw.
  cbn [trace snd globals set_globals srw set_srw obj glob fst timer set_timer].
  assert (Hz : (result tridx_RESPONSE g =? 0) = true).
  { unfold result. rewrite Fres. apply Z.eqb_eq. exact Hresp. }
  cbn [s_finish v StateResponseWindow_vtable ResponseWindow_vtable].
  unfold StateResponseWindow_s_finish. rewrite Hz.
  assert (Hrew : param tpidx_REW (set_result tridx_RESPONSE (NOGO K) g)
                 = param tpidx_REW g) by reflexivity.
  rewrite Hrew.
  destruct (results_values (globals w2)) as [|r0 [|r1 [|r2 rest]]] eqn:El;
    try discriminate Hlen.
  unfold set_result. cbn [snd next_state set_next_state results_values
    set_results_values].
  repeat split; destruct (param tpidx_REW g =? NOGO K);
    cbn [results_values set_results_values]; rewrite Fres; reflexivity.
Qed.

(** ** Parameters, the valve, and what is reported *)

Lemma keeps_params_trans (a b c : Globals) :
  keeps_params a b -> keeps_params b c -> keeps_params a c.
Proof. unfold keeps_params. congruence. Qed.

Lemma every_class_keeps_params (K : Codes) (lick : Globals -> bool) :
  class_keeps keeps_params StimPeriod_vtable /\
  class_keeps keeps_params (ResponseWindow_vtable K lick) /\
  class_keeps keeps_params StateInterTrialInterval_vtable /\
  class_keeps keeps_params StatePostRewardPause_vtable /\
  class_keeps keeps_params StateErrorTimeout_vtable.
Proof. repeat split; hooks_by_cases; reflexivity. Qed.

Lemma loop_state_dependent_keeps_params (K : Codes) (time : Z)
  (g : Globals) (w : World) :
  param_values (globals (loop_state_dependent K time g w)) = param_values g.
Proof.
  destruct (every_class_keeps_params K StateResponseWindow_set_licking_variables)
    as [Hs [Hr [Hi [Hp He]]]].
  unfold loop_state_dependent.
  destruct (current_state w); cbn [globals set_globals].
  - break_if; reflexivity.
  - reflexivity.
  - apply (run_keeps keeps_params); [exact keeps_params_trans | exact Hs].
  - cbn [FAKE_RESPONDER update StateResponseWindow_vtable ResponseWindow_vtable
         StateResponseWindow_update globals set_globals].
    apply (run_keeps keeps_params (ResponseWindow_vtable K _));
      [exact keeps_params_trans | exact Hr].
  - reflexivity.
  - apply (run_keeps keeps_params); [exact keeps_params_trans | exact Hp].
  - apply (run_keeps keeps_params); [exact keeps_params_trans | exact He].
  - apply (run_keeps keeps_params); [exact keeps_params_trans | exact Hi].
Qed.

(** X13.  The parameter table changes through a command only: a pass of
    [loop] on which the chat library hands over no command (nothing, or
    the release of the trial) leaves every parameter as it is, in every
    state. *)
Theorem parameters_change_by_command_only (K : Codes)
  (inp : TickInput) (w : World) :
  (forall protocol_cmd argument1 argument2,
     chat inp <> Some (Command protocol_cmd argument1 argument2)) ->
  param_values (globals (Sketch.loop K inp w)) = param_values (globals w).
Proof.
  intros Hchat. unfold Sketch.loop. cbv zeta.
  destruct (loop_update_state_frame inp
              (loop_state_dependent K (millis_loop inp) (loop_every_pass inp w) w))
    as [_ _].
  assert (Hu : forall w1, param_values (globals (loop_update_state inp w1))
                          = param_values (globals w1)).
  { intros w1. unfold loop_update_state. break_if; reflexivity. }
  rewrite Hu, loop_state_dependent_keeps_params.
  unfold loop_every_pass, communications. cbn [input set_input set_next_state chat].
  destruct (chat inp) as [[|c a1 a2]|].
  - break_if; reflexivity.
  - exfalso. apply (Hchat c a1 a2). reflexivity.
  - break_if; reflexivity.
Qed.

(** X14.  The valve in the stimulus period.  A call of [run] on the
    stimulus period only adds to what was written; when it calls
    [s_finish], the last thing written closes the valve; and on a trial
    whose REW is not 1 nothing it writes opens the valve. *)
Theorem stimulus_period_valve (time : Z) (this : StimPeriod) (g : Globals) :
  exists written,
    output (glob (run StimPeriod_vtable time this g)) = output g ++ written /\
    (In Finish (trace (run StimPeriod_vtable time this g)) ->
     last written (delay 0) = digitalWrite_SOLENOID_PIN false) /\
    (param tpidx_REW g <> 1 -> existsb opens_valve written = false).
Proof.
  assert (Hfin : forall a : StimPeriod,
            output (snd (s_finish StimPeriod_vtable a g))
            = output g ++ [Device_s_finish 0; Device_s_finish 1;
                           digitalWrite_SOLENOID_PIN false]).
  { intros a. cbn [s_finish StimPeriod_vtable]. unfold StimPeriod_s_finish.
    break_if; cbn; rewrite <- !app_assoc; reflexivity. }
  assert (Hloop : forall a : StimPeriod, exists tail,
            output (snd (TimedStateLib.loop StimPeriod_vtable a g))
            = output g ++ Device_loop 0 (nth 0 (devFcns (ext a)) 0)
                       :: Device_loop 1 (nth 1 (devFcns (ext a)) 0) :: tail /\
            (param tpidx_REW g <> 1 -> tail = [])).
  { intros a. cbn [TimedStateLib.loop StimPeriod_vtable]. unfold StimPeriod_loop.
    cbn [NUM_DEVICES seq fold_left].
    match goal with |- context [if ?c then _ else _] => destruct c eqn:Ec end.
    - exists [digitalWrite_SOLENOID_PIN true]. split.
      + cbn. rewrite <- !app_assoc. reflexivity.
      + intros Hrew. apply andb_true_iff in Ec. destruct Ec as [Ec _].
        apply Z.eqb_eq in Ec. exfalso. apply Hrew. exact Ec.
    - exists []. split; [|reflexivity].
      cbn. rewrite <- !app_assoc. reflexivity. }
  destruct (Z.eq_dec (timer this) 0) as [E0|E0].
  - destruct (run_inactive_eq StimPeriod_vtable time this g E0) as [[_ E] | [_ E]];
      rewrite E; cbn [glob trace fst snd].
    + eexists. split; [apply (Hfin _)|]. split; reflexivity.
    + destruct (Hloop (fst (activated StimPeriod_vtable time this g)))
        as [tail [Ho Ht]].
      eexists. split; [exact Ho|]. split.
      * intros [H|[H|[]]]; discriminate.
      * intros Hrew. rewrite (Ht Hrew). reflexivity.
  - destruct (run_active_eq StimPeriod_vtable time this g E0) as [[_ E] | [_ [_ E]]];
      rewrite E; cbn [glob trace fst snd].
    + eexists. split; [apply (Hfin _)|]. split; reflexivity.
    + destruct (Hloop (set_time_of_last_call time this)) as [tail [Ho Ht]].
      eexists. split; [exact Ho|]. split.
      * intros [H|[]]; discriminate.
      * intros Hrew. rewrite (Ht Hrew). reflexivity.
Qed.

(** X15.  A pass in TRIAL_START reports, after whatever the first part of
    the pass wrote, the start of the trial and then exactly the four
    parameters marked in [param_report_ET], in the order of the table and
    with the values they have on that pass; it announces the change of
    state and leaves for STIM_PERIOD. *)
Theorem trial_start_report (K : Codes) (inp : TickInput) (w : World) :
  current_state w = TRIAL_START ->
  output (globals (Sketch.loop K inp w))
  = output (loop_every_pass inp w)
    ++ [Serial_TRL_START (millis_loop inp);
        Serial_TRLP (millis_loop inp) "STPRIDX"
          (param tpidx_STPRIDX (loop_every_pass inp w));
        Serial_TRLP (millis_loop inp) "SPKRIDX"
          (param tpidx_SPKRIDX (loop_every_pass inp w));
        Serial_TRLP (millis_loop inp) "STIMDUR"
          (param tpidx_STIM_DUR (loop_every_pass inp w));
        Serial_TRLP (millis_loop inp) "REW"
          (param tpidx_REW (loop_every_pass inp w));
        Serial_ST_CHG (millis_loop inp) TRIAL_START STIM_PERIOD;
        Serial_ST_CHG2 (millis_chg inp) TRIAL_START STIM_PERIOD] /\
  current_state (Sketch.loop K inp w) = STIM_PERIOD.
Proof.
  intros Hcur. unfold Sketch.loop, loop_state_dependent, loop_update_state.
  cbv zeta. rewrite Hcur.
  cbn [globals set_globals current_state set_current_state].
  rewrite Hcur.
  set (g := loop_every_pass inp w).
  unfold trial_start. cbn. rewrite <- !app_assoc. split; reflexivity.
Qed.

(** Once active, the inter-trial interval writes nothing more; its last
    call asks for WAIT_TO_START_TRIAL. *)
Lemma active_interval_end (times : list Z) :
  forall (this : TimedState unit) (g : Globals),
  timer this <> 0 ->
  times <> [] ->
  (forall k r, nth_error (runs StateInterTrialInterval_vtable times this g) k = Some r ->
     (timer (obj r) = 0 <-> S k = length times)) ->
  snd (after_runs StateInterTrialInterval_vtable times this g)
    = set_next_state WAIT_TO_START_TRIAL g /\
  timer (fst (after_runs StateInterTrialInterval_vtable times this g)) = 0.
Proof.
  induction times as [|t ts IH]; intros this g Ht Hne Hact; [congruence|].
  pose proof (Hact O _ eq_refl) as H0. cbn [length] in H0.
  cbn [after_runs].
  destruct (run_active_eq StateInterTrialInterval_vtable t this g Ht)
    as [[_ E] | [_ [_ E]]]; rewrite E in H0 |- *; cbn [obj glob fst snd] in H0 |- *.
  - assert (El : ts = []).
    { destruct H0 as [H0 _]. specialize (H0 eq_refl). injection H0 as H0.
      symmetry in H0. apply length_zero_iff_nil in H0. exact H0. }
    subst ts. cbn [after_runs fst snd]. split; reflexivity.
  - cbn [TimedStateLib.loop StateInterTrialInterval_vtable nothing fst snd] in H0 |- *.
    assert (Hts : ts <> []).
    { intros ->. destruct H0 as [_ H0]. specialize (H0 eq_refl).
      cbn in H0. congruence. }
    apply IH; [exact Ht | exact Hts |].
    intros k r Hr. specialize (Hact (S k) r).
    cbn [runs nth_error length] in Hact. rewrite E in Hact.
    cbn [obj glob fst snd TimedStateLib.loop StateInterTrialInterval_vtable nothing]
      in Hact.
    specialize (Hact Hr). split; intros H; [apply Hact in H; lia | apply Hact; lia].
Qed.

(** X16.  Over an activation of the inter-trial interval the results are
    reported exactly once: all that the calls of [run] write is one TRLR
    line for RESP and one for OUTC, in this order, with the time of the
    first call and the values the results have then.  The results
    themselves are not changed, and the activation ends asking for
    WAIT_TO_START_TRIAL. *)
Theorem results_reported_once (t0 : Z) (rest : list Z)
  (this : TimedState unit) (g : Globals) :
  is_ulong t0 ->
  activation StateInterTrialInterval_vtable (t0 :: rest) this g ->
  output (snd (after_runs StateInterTrialInterval_vtable (t0 :: rest) this g))
    = output g ++ [Serial_TRLR t0 "RESP" (result tridx_RESPONSE g);
                   Serial_TRLR t0 "OUTC" (result tridx_OUTCOME g)] /\
  results_values (snd (after_runs StateInterTrialInterval_vtable (t0 :: rest) this g))
    = results_values g /\
  next_state (snd (after_runs StateInterTrialInterval_vtable (t0 :: rest) this g))
    = WAIT_TO_START_TRIAL /\
  timer (fst (after_runs StateInterTrialInterval_vtable (t0 :: rest) this g)) = 0.
Proof.
  intros Hr [Ht [_ Hact]]. unfold is_ulong in Hr.
  set (v := StateInterTrialInterval_vtable) in *.
  pose proof (Hact O _ eq_refl) as H0. cbn [length] in H0.
  set (a := activated v t0 this g).
  assert (Ha : output (snd a)
               = output g ++ [Serial_TRLR t0 "RESP" (result tridx_RESPONSE g);
                              Serial_TRLR t0 "OUTC" (result tridx_OUTCOME g)] /\
               results_values (snd a) = results_values g).
  { subst a. unfold activated. cbn. rewrite <- !app_assoc. split; reflexivity. }
  destruct Ha as [Hout Hres].
  cbn [after_runs].
  destruct (run_inactive_eq v t0 this g Ht) as [[_ E] | [Hlt E]];
    fold a in E; rewrite E in H0 |- *; cbn [obj glob fst snd] in H0 |- *.
  - assert (El : rest = []).
    { destruct H0 as [H0 _]. specialize (H0 eq_refl). injection H0 as H0.
      symmetry in H0. apply length_zero_iff_nil in H0. exact H0. }
    subst rest. cbn [after_runs fst snd].
    cbn [s_finish v StateInterTrialInterval_vtable StateInterTrialInterval_s_finish
         fst snd]. cbn [output set_next_state results_values next_state timer set_timer].
    repeat split; assumption.
  - cbn [TimedStateLib.loop v StateInterTrialInterval_vtable nothing fst snd] in H0 |- *.
    assert (Hta : timer (fst a) = deadline v t0 this g) by reflexivity.
    assert (Hnz : timer (fst a) <> 0) by lia.
    assert (Hrest : rest <> []).
    { intros ->. destruct H0 as [_ H0]. specialize (H0 eq_refl). congruence. }
    destruct (active_interval_end rest (fst a) (snd a) Hnz Hrest) as [Hend Htimer].
    + intros k r Hkr. specialize (Hact (S k) r).
      cbn [runs nth_error length] in Hact. rewrite E in Hact.
      cbn [obj glob fst snd TimedStateLib.loop v StateInterTrialInterval_vtable nothing]
        in Hact.
      specialize (Hact Hkr). split; intros H; [apply Hact in H; lia | apply Hact; lia].
    + fold v in Hend, Htimer. rewrite Hend.
      cbn [output set_next_state results_values next_state].
      repeat split; assumption.
Qed.

Lemma ulong_plus_modulus (z : Z) : ulong (z + 4294967296) = ulong z.
Proof. unfold ulong. apply (Z_mod_plus_full z 1 4294967296). Qed.

(** X17.  A duration that is 0 or stands for a negative number.  When
    [s_setup] leaves as duration the [unsigned long] of a number [p] with
    [-time <= p <= 0], as the response window, the error timeout and the
    inter-trial interval do for such a value of their parameter, the
    deadline is not after the time of the first call, which therefore
    runs [s_setup] and [s_finish] and no [loop]: [s_finish] runs on the
    object and the globals [s_setup] left, the flag cleared and
    [time + p] stored in [timer], and the call leaves what [s_finish]
    left, with [timer] put back to 0. *)
Theorem nonpositive_duration_finishes_at_once {X G : Type} (v : vtable X G)
  (time p : Z) (this : TimedState X) (g : G) :
  is_ulong time ->
  timer this = 0 ->
  duration (fst (s_setup v (set_time_of_last_call time this) g)) = ulong p ->
  - time <= p <= 0 ->
  let s := s_setup v (set_time_of_last_call time this) g in
  let f := s_finish v (set_timer (time + p) (set_flag_stop false (fst s))) (snd s) in
  deadline v time this g = time + p /\
  run v time this g = (set_timer 0 (fst f), snd f, [Setup; Finish]) /\
  trace (run v time this g) = [Setup; Finish] /\
  timer (obj (run v time this g)) = 0.
Proof.
  intros Hr Ht Hd Hp s f. unfold is_ulong in Hr.
  assert (E : deadline v time this g = time + p).
  { unfold deadline. rewrite Hd.
    destruct (Z.eq_dec p 0) as [->|Hnz].
    - rewrite (ulong_small 0) by lia. apply ulong_small. lia.
    - rewrite (ulong_negative p) by lia.
      rewrite Z.add_assoc, ulong_plus_modulus. apply ulong_small. lia. }
  split; [exact E|].
  assert (Ea : activated v time this g
               = (set_timer (time + p) (set_flag_stop false (fst s)), snd s)).
  { unfold activated. cbv zeta. unfold deadline in E. rewrite E. reflexivity. }
  destruct (run_inactive_eq v time this g Ht) as [[_ Er] | [Hlt _]]; [|lia].
  rewrite Ea in Er. cbn [fst snd] in Er. fold f in Er.
  rewrite Er. repeat split.
Qed.

(** X18.  The post-reward pause keeps the duration it was constructed
    with: no pass of [loop] changes it, in whatever state and whatever is
    read, a later SET IRI included, and the deadline of an activation is
    the time plus that duration whatever the globals hold. *)
Theorem post_reward_pause_duration_is_fixed (K : Codes)
  (inp : TickInput) (w : World) (time : Z) (g : Globals) :
  duration (state_post_reward_pause (Sketch.loop K inp w))
    = duration (state_post_reward_pause w) /\
  deadline StatePostRewardPause_vtable time (state_post_reward_pause w) g
    = ulong (time + duration (state_post_reward_pause w)).
Proof.
  split; [|reflexivity].
  destruct (STATE_TYPE_eqb (current_state w) POST_REWARD_PAUSE) eqn:Ecur.
  - apply STATE_TYPE_eqb_eq in Ecur.
    unfold Sketch.loop. cbv zeta.
    match goal with |- context [loop_update_state inp ?w1] =>
      destruct (loop_update_state_objects inp w1) as [_ [_ [_ [_ [_ U]]]]]
    end.
    rewrite U. unfold loop_state_dependent. rewrite Ecur.
    cbn [state_post_reward_pause set_state_post_reward_pause set_globals].
    set (this := state_post_reward_pause w).
    set (g1 := loop_every_pass inp w).
    destruct (Z.eq_dec (timer this) 0) as [E0|E0].
    + destruct (run_inactive_eq StatePostRewardPause_vtable (millis_loop inp)
                  this g1 E0) as [[_ E] | [_ E]]; rewrite E; reflexivity.
    + destruct (run_active_eq StatePostRewardPause_vtable (millis_loop inp)
                  this g1 E0) as [[_ E] | [_ [_ E]]]; rewrite E; reflexivity.
  - destruct (pass_objects K inp w) as [_ [_ [_ [_ [_ H]]]]].
    rewrite H; [reflexivity|].
    intros E. rewrite E in Ecur. discriminate.
Qed.

(** ** The release of a trial *)

Lemma keeps_flag_trans (a b c : Globals) :
  keeps_flag a b -> keeps_flag b c -> keeps_flag a c.
Proof. unfold keeps_flag. congruence. Qed.

Lemma every_class_keeps_flag (K : Codes) (lick : Globals -> bool) :
  class_keeps keeps_flag StimPeriod_vtable /\
  class_keeps keeps_flag (ResponseWindow_vtable K lick) /\
  class_keeps keeps_flag StateInterTrialInterval_vtable /\
  class_keeps keeps_flag StatePostRewardPause_vtable /\
  class_keeps keeps_flag StateErrorTimeout_vtable.
Proof. repeat split; hooks_by_cases; reflexivity. Qed.

(** X19.  The release flag is cleared in WAIT_TO_START_TRIAL and nowhere
    else.  A pass in any other state leaves the flag as the first part of
    the pass found or set it, so a release that arrives during a trial is
    kept; a pass in WAIT_TO_START_TRIAL goes to TRIAL_START exactly when
    the flag is set, and leaves it clear. *)
Theorem release_flag (K : Codes) (inp : TickInput) (w : World) :
  flag_start_trial (globals (Sketch.loop K inp w))
  = (if STATE_TYPE_eqb (current_state w) WAIT_TO_START_TRIAL
     then false
     else flag_start_trial (loop_every_pass inp w)) /\
  (current_state w = WAIT_TO_START_TRIAL ->
   current_state (Sketch.loop K inp w)
   = if flag_start_trial (loop_every_pass inp w)
     then TRIAL_START else WAIT_TO_START_TRIAL).
Proof.
  destruct (loop_every_pass_frame inp w) as [_ [Fnext _]].
  destruct (every_class_keeps_flag K StateResponseWindow_set_licking_variables)
    as [Hs [Hr [Hi [Hp He]]]].
  unfold Sketch.loop. cbv zeta.
  assert (Hu : forall w1, flag_start_trial (globals (loop_update_state inp w1))
                          = flag_start_trial (globals w1)).
  { intros w1. unfold loop_update_state. break_if; reflexivity. }
  destruct (loop_update_state_frame inp
              (loop_state_dependent K (millis_loop inp) (loop_every_pass inp w) w))
    as [Ucur _].
  rewrite Hu, Ucur. set (g := loop_every_pass inp w) in *.
  unfold loop_state_dependent.
  destruct (current_state w) eqn:Ecur;
    cbn [STATE_TYPE_eqb globals set_globals]; (split; [|try discriminate]).
  - destruct (flag_start_trial g) eqn:Ef; cbn; [reflexivity | exact Ef].
  - intros _. destruct (flag_start_trial g) eqn:Ef; cbn; [reflexivity | exact Fnext].
  - reflexivity.
  - apply (run_keeps keeps_flag); [exact keeps_flag_trans | exact Hs].
  - cbn [FAKE_RESPONDER update StateResponseWindow_vtable ResponseWindow_vtable
         StateResponseWindow_update globals set_globals].
    apply (run_keeps keeps_flag (ResponseWindow_vtable K _));
      [exact keeps_flag_trans | exact Hr].
  - reflexivity.
  - apply (run_keeps keeps_flag); [exact keeps_flag_trans | exact Hp].
  - apply (run_keeps keeps_flag); [exact keeps_flag_trans | exact He].
  - apply (run_keeps keeps_flag); [exact keeps_flag_trans | exact Hi].
Qed.

(** ** The further properties at concrete inputs *)

(** X1 at SET XYZ 5. *)
Lemma set_unknown_parameter_witness :
  take_action "SET" "XYZ" "5" initial_globals
    = (4, emit (Serial_ERR_param_not_found "XYZ") initial_globals) /\
  param_values (snd (take_action "SET" "XYZ" "5" initial_globals))
    = param_values initial_globals.
Proof.
  apply (set_unknown_parameter "XYZ" "5" initial_globals).
  cbn. intros H. repeat (destruct H as [H|H]; [discriminate H|]). exact H.
Defined.

(** X2 at the command GET. *)
Lemma other_commands_change_nothing_witness :
  take_action "GET" "MRT" "" initial_globals
    = (if String.eqb "GET" "ACT" then 6 else 2, initial_globals).
Proof.
  apply (other_commands_change_nothing "GET" "MRT" "" initial_globals).
  discriminate.
Defined.

(** X3 at SET MRT 3. *)
Lemma set_then_read_witness :
  fst (take_action "SET" "MRT" "3" initial_globals) = 0 /\
  param 9 (snd (take_action "SET" "MRT" "3" initial_globals)) = 3 /\
  (forall j, j <> 9%nat ->
     param j (snd (take_action "SET" "MRT" "3" initial_globals))
       = param j initial_globals) /\
  length (param_values (snd (take_action "SET" "MRT" "3" initial_globals)))
    = N_TRIAL_PARAMS /\
  output (snd (take_action "SET" "MRT" "3" initial_globals)) = output initial_globals.
Proof.
  apply (set_then_read 9 "MRT" "3" 3 initial_globals); reflexivity.
Defined.

(** X5 at SET ITI 250 on an interval of 3000. *)
Lemma interval_never_set_to_zero_witness :
  SimpleSketch.inter_trial_interval
    (snd (SimpleSketch.take_action "SET" "ITI" "250" (SimpleSketch.mkTrialParams 3000)))
    <> 0 /\
  SimpleSketch.inter_trial_interval
    (snd (SimpleSketch.take_action "SET" "ITI" "250" (SimpleSketch.mkTrialParams 3000)))
    = ulong (int (toInt "250")).
Proof.
  pose proof (interval_never_set_to_zero "SET" "ITI" "250"
                (SimpleSketch.mkTrialParams 3000)) as [H1 H2].
  split.
  - apply H1. cbn. discriminate.
  - apply H2. reflexivity.
Defined.

(** X6 at SET ITI 5000. *)
Lemma set_interval_through_int_witness :
  SimpleSketch.take_action "SET" "ITI" "5000" (SimpleSketch.mkTrialParams 3000)
    = (0, SimpleSketch.mkTrialParams 5000).
Proof.
  apply (set_interval_through_int "5000" 5000 (SimpleSketch.mkTrialParams 3000)).
  - reflexivity.
  - lia.
Defined.

(** X7 at an interval of 3000 entered at 1, with passes at 5 and 3001. *)
Lemma interval_wait_witness :
  SimpleLoop.current_state
    (SimpleLoop.quiet_passes sample_handle_chat [1; 5; 3001] simple_in_interval)
    = SimpleLoop.INTER_TRIAL_INTERVAL /\
  SimpleLoop.state_timer
    (SimpleLoop.quiet_passes sample_handle_chat [1; 5; 3001] simple_in_interval)
    = 1 + 3000.
Proof.
  pose proof (interval_wait sample_handle_chat 1 3000 [5; 3001] simple_in_interval)
    as H.
  destruct H as [H1 [H2 _]].
  - reflexivity.
  - reflexivity.
  - reflexivity.
  - vm_compute. split; congruence.
  - lia.
  - vm_compute. reflexivity.
  - repeat constructor; lia.
  - split; assumption.
Defined.

(** X10 at a pass in RESPONSE_WINDOW. *)
Lemma pass_runs_one_object_witness :
  stim_period (Sketch.loop sample_codes (quiet 60 1023) world_in_response_window)
    = stim_period world_in_response_window /\
  state_error_timeout (Sketch.loop sample_codes (quiet 60 1023) world_in_response_window)
    = state_error_timeout world_in_response_window.
Proof.
  pose proof (pass_runs_one_object sample_codes (quiet 60 1023)
                world_in_response_window) as [H1 [_ [_ [_ [H5 _]]]]].
  split; [apply H1 | apply H5]; vm_compute; discriminate.
Defined.

(** X12 at the rewarded trial: the pass at 563 stops the window, and the
    window of the next trial, entered at 3618, is over on its first
    pass. *)
Lemma stop_ends_the_next_window_witness :
  current_state (Sketch.loop sample_codes (quiet 563 0) world_back_in_window)
    = INTER_TRIAL_INTERVAL /\
  flag_stop (srw (Sketch.loop sample_codes (quiet 563 0) world_back_in_window)) = true /\
  timer (srw (Sketch.loop sample_codes (quiet 563 0) world_back_in_window)) <> 0 /\
  trace (run (StateResponseWindow_vtable sample_codes) (millis_loop (quiet 3618 0))
           (fst (update (StateResponseWindow_vtable sample_codes)
                   (srw world_at_the_next_window)
                   (loop_every_pass (quiet 3618 0) world_at_the_next_window)))
           (loop_every_pass (quiet 3618 0) world_at_the_next_window))
    = [Finish] /\
  current_state (Sketch.loop sample_codes (quiet 3618 0) world_at_the_next_window)
    = INTER_TRIAL_INTERVAL /\
  result tridx_RESPONSE
    (globals (Sketch.loop sample_codes (quiet 3618 0) world_at_the_next_window))
    = NOGO sample_codes /\
  result tridx_OUTCOME
    (globals (Sketch.loop sample_codes (quiet 3618 0) world_at_the_next_window))
    = (if param tpidx_REW (loop_every_pass (quiet 3618 0) world_at_the_next_window)
          =? NOGO sample_codes
       then OUTCOME_CR sample_codes else OUTCOME_MISS sample_codes) /\
  timer (srw (Sketch.loop sample_codes (quiet 3618 0) world_at_the_next_window)) = 0.
Proof.
  apply (stop_ends_the_next_window sample_codes (quiet 563 0) (quiet 3618 0)
           world_back_in_window world_at_the_next_window).
  - reflexivity.
  - vm_compute. split; congruence.
  - vm_compute. left. reflexivity.
  - vm_compute. congruence.
  - reflexivity.
  - vm_compute. reflexivity.
  - reflexivity.
  - reflexivity.
Defined.

(** X13 at a quiet pass in RESPONSE_WINDOW. *)
Lemma parameters_change_by_command_only_witness :
  param_values (globals (Sketch.loop sample_codes (quiet 60 1023)
                           world_in_response_window))
    = param_values (globals world_in_response_window).
Proof.
  apply (parameters_change_by_command_only sample_codes (quiet 60 1023)
           world_in_response_window).
  intros c a1 a2. discriminate.
Defined.

(** X14 at the call that ends a stimulus period whose deadline is 53, on
    an unrewarded trial. *)
Lemma stimulus_period_valve_witness :
  exists written,
    output (glob (run StimPeriod_vtable 53
                    (set_timer 53 (constructed 2000 (mkStimPeriod 0 [0; 0])))
                    initial_globals))
      = output initial_globals ++ written /\
    last written (delay 0) = digitalWrite_SOLENOID_PIN false /\
    existsb opens_valve written = false.
Proof.
  destruct (stimulus_period_valve 53
              (set_timer 53 (constructed 2000 (mkStimPeriod 0 [0; 0])))
              initial_globals)
    as [written [H1 [H2 H3]]].
  exists written. split; [exact H1|]. split.
  - apply H2. vm_compute. left. reflexivity.
  - apply H3. vm_compute. discriminate.
Defined.

(** X15 at the start of the second trial. *)
Lemma trial_start_report_witness :
  output (globals (Sketch.loop sample_codes (quiet 9064 0) world_at_second_trial_start))
  = output (loop_every_pass (quiet 9064 0) world_at_second_trial_start)
    ++ [Serial_TRL_START (millis_loop (quiet 9064 0));
        Serial_TRLP (millis_loop (quiet 9064 0)) "STPRIDX"
          (param tpidx_STPRIDX (loop_every_pass (quiet 9064 0) world_at_second_trial_start));
        Serial_TRLP (millis_loop (quiet 9064 0)) "SPKRIDX"
          (param tpidx_SPKRIDX (loop_every_pass (quiet 9064 0) world_at_second_trial_start));
        Serial_TRLP (millis_loop (quiet 9064 0)) "STIMDUR"
          (param tpidx_STIM_DUR (loop_every_pass (quiet 9064 0) world_at_second_trial_start));
        Serial_TRLP (millis_loop (quiet 9064 0)) "REW"
          (param tpidx_REW (loop_every_pass (quiet 9064 0) world_at_second_trial_start));
        Serial_ST_CHG (millis_loop (quiet 9064 0)) TRIAL_START STIM_PERIOD;
        Serial_ST_CHG2 (millis_chg (quiet 9064 0)) TRIAL_START STIM_PERIOD] /\
  current_state (Sketch.loop sample_codes (quiet 9064 0) world_at_second_trial_start)
    = STIM_PERIOD.
Proof.
  apply (trial_start_report sample_codes (quiet 9064 0) world_at_second_trial_start).
  reflexivity.
Defined.

(** X16 at an inter-trial interval of 3000 entered at 0, with calls at 10
    and at 3000. *)
Lemma results_reported_once_witness :
  output (snd (after_runs StateInterTrialInterval_vtable [0; 10; 3000]
                 (state_inter_trial_interval initial_world) initial_globals))
    = output initial_globals
      ++ [Serial_TRLR 0 "RESP" (result tridx_RESPONSE initial_globals);
          Serial_TRLR 0 "OUTC" (result tridx_OUTCOME initial_globals)] /\
  results_values (snd (after_runs StateInterTrialInterval_vtable [0; 10; 3000]
                         (state_inter_trial_interval initial_world) initial_globals))
    = results_values initial_globals /\
  next_state (snd (after_runs StateInterTrialInterval_vtable [0; 10; 3000]
                     (state_inter_trial_interval initial_world) initial_globals))
    = WAIT_TO_START_TRIAL /\
  timer (fst (after_runs StateInterTrialInterval_vtable [0; 10; 3000]
                (state_inter_trial_interval initial_world) initial_globals)) = 0.
Proof.
  apply (results_reported_once 0 [10; 3000]
           (state_inter_trial_interval initial_world) initial_globals).
  - vm_compute. split; congruence.
  - split; [reflexivity|]. split; [discriminate|].
    intros k r H.
    destruct k as [|[|[|k]]]; cbn [runs nth_error] in H;
      try (destruct k; discriminate H);
      injection H as <-; split; intros E; vm_compute in E |- *;
      try discriminate E; reflexivity.
Defined.

(** X17 at a response window whose RWIN was set to -5, entered at 100:
    the one call stores the duration 4294967291 and leaves the results
    and the next state of [s_finish]. *)
Lemma nonpositive_duration_finishes_at_once_witness :
  deadline (StateResponseWindow_vtable sample_codes) 100 (srw initial_world)
    (snd (take_action "SET" "RWIN" "-5" initial_globals)) = 100 + -5 /\
  run (StateResponseWindow_vtable sample_codes) 100 (srw initial_world)
    (snd (take_action "SET" "RWIN" "-5" initial_globals))
  = (mkTimedState 100 0 4294967291 false (mkStateResponseWindow false 0),
     set_next_state INTER_TRIAL_INTERVAL
       (set_result tridx_OUTCOME (OUTCOME_MISS sample_codes)
          (set_result tridx_RESPONSE (NOGO sample_codes)
             (snd (take_action "SET" "RWIN" "-5" initial_globals)))),
     [Setup; Finish]) /\
  trace (run (StateResponseWindow_vtable sample_codes) 100 (srw initial_world)
           (snd (take_action "SET" "RWIN" "-5" initial_globals)))
    = [Setup; Finish] /\
  timer (obj (run (StateResponseWindow_vtable sample_codes) 100 (srw initial_world)
                (snd (take_action "SET" "RWIN" "-5" initial_globals)))) = 0.
Proof.
  apply (nonpositive_duration_finishes_at_once (StateResponseWindow_vtable sample_codes)
           100 (-5) (srw initial_world)
           (snd (take_action "SET" "RWIN" "-5" initial_globals))).
  - vm_compute. split; congruence.
  - reflexivity.
  - reflexivity.
  - lia.
Defined.

(** X19 at the release of the first trial. *)
Lemma release_flag_witness :
  current_state (Sketch.loop sample_codes (said RELEASE_TRL 1) initial_world)
  = (if flag_start_trial (loop_every_pass (said RELEASE_TRL 1) initial_world)
     then TRIAL_START else WAIT_TO_START_TRIAL) /\
  flag_start_trial (loop_every_pass (said RELEASE_TRL 1) initial_world) = true.
Proof.
  split; [|reflexivity].
  apply (release_flag sample_codes (said RELEASE_TRL 1) initial_world).
  reflexivity.
Defined.

(** ** A reward does not restart the response window *)

(** A call of [run] on a response window that asks for REWARD went through
    [loop]: the deadline is in place and ahead, and the flag is clear. *)
Lemma rewarding_run (K : Codes) (lick : Globals -> bool)
  (time : Z) (this : StateResponseWindow) (g : Globals) :
  is_ulong time ->
  next_state g <> REWARD ->
  next_state (glob (run (ResponseWindow_vtable K lick) time this g)) = REWARD ->
  time < timer (obj (run (ResponseWindow_vtable K lick) time this g)) /\
  flag_stop (obj (run (ResponseWindow_vtable K lick) time this g)) = false /\
  (timer this <> 0 ->
   timer (obj (run (ResponseWindow_vtable K lick) time this g)) = timer this).
Proof.
  intros Hr Hn Hrew. set (v := ResponseWindow_vtable K lick) in *.
  assert (Hfin : forall (a : StateResponseWindow),
            next_state (snd (s_finish v a g)) <> REWARD).
  { intros a. cbn [s_finish v ResponseWindow_vtable].
    unfold StateResponseWindow_s_finish. repeat break_if; cbn; congruence. }
  assert (Hloop : forall (a : StateResponseWindow),
            next_state (snd (TimedStateLib.loop v a g)) = REWARD ->
            timer (fst (TimedStateLib.loop v a g)) = timer a /\
            flag_stop (fst (TimedStateLib.loop v a g)) = flag_stop a).
  { intros a. cbn [TimedStateLib.loop v ResponseWindow_vtable].
    unfold StateResponseWindow_loop. repeat break_if; cbn; intros H;
      try (split; reflexivity); congruence. }
  destruct (Z.eq_dec (timer this) 0) as [E0|E0].
  - destruct (run_inactive_eq v time this g E0) as [[_ E] | [Hlt E]];
      rewrite E in Hrew |- *; cbn [obj glob fst snd] in Hrew |- *.
    + exfalso. exact (Hfin _ Hrew).
    + change (snd (activated v time this g)) with g in Hrew |- *.
      destruct (Hloop _ Hrew) as [Ht Hf]. rewrite Ht, Hf.
      split; [exact Hlt|]. split; [reflexivity | intros H; contradiction].
  - destruct (run_active_eq v time this g E0) as [[_ E] | [Hf0 [Hlt E]]];
      rewrite E in Hrew |- *; cbn [obj glob fst snd] in Hrew |- *.
    + exfalso. exact (Hfin _ Hrew).
    + destruct (Hloop _ Hrew) as [Ht Hf]. rewrite Ht, Hf.
      split; [exact Hlt|]. split; [exact Hf0 | intros _; reflexivity].
Qed.

(** X20.  A reward does not restart the response window.  The pass that
    leaves RESPONSE_WINDOW for REWARD leaves the window object active: its
    deadline is ahead of the time of the pass and is the one it had when
    it was already active, and its flag is clear.  On a later pass in
    RESPONSE_WINDOW that finds the object so, [run] calls no [s_setup]:
    the window goes on towards the same deadline, the pause after the
    reward counted in. *)
Theorem reward_keeps_the_deadline (K : Codes)
  (inpA inpB : TickInput) (w w2 : World) :
  current_state w = RESPONSE_WINDOW ->
  current_state (Sketch.loop K inpA w) = REWARD ->
  is_ulong (millis_loop inpA) ->
  current_state w2 = RESPONSE_WINDOW ->
  srw w2 = srw (Sketch.loop K inpA w) ->
  millis_loop inpA < timer (srw (Sketch.loop K inpA w)) /\
  flag_stop (srw (Sketch.loop K inpA w)) = false /\
  (timer (srw w) <> 0 -> timer (srw (Sketch.loop K inpA w)) = timer (srw w)) /\
  ~ In Setup (trace (run (StateResponseWindow_vtable K) (millis_loop inpB)
                       (fst (update (StateResponseWindow_vtable K) (srw w2)
                               (loop_every_pass inpB w2)))
                       (loop_every_pass inpB w2))) /\
  (timer (srw (Sketch.loop K inpB w2)) = timer (srw (Sketch.loop K inpA w)) \/
   timer (srw (Sketch.loop K inpB w2)) = 0).
Proof.
  intros Hcur Hrew Hr Hcur2 Hsrw.
  assert (HA : millis_loop inpA < timer (srw (Sketch.loop K inpA w)) /\
               flag_stop (srw (Sketch.loop K inpA w)) = false /\
               (timer (srw w) <> 0 ->
                timer (srw (Sketch.loop K inpA w)) = timer (srw w))).
  { revert Hrew. rewrite (loop_in_response_window K inpA w Hcur). cbv zeta.
    destruct (loop_every_pass_frame inpA w) as [_ [Fnext _]].
    match goal with |- context [loop_update_state inpA ?w1] =>
      destruct (loop_update_state_frame inpA w1) as [Ucur _];
      destruct (loop_update_state_objects inpA w1) as [_ [Usrw _]]
    end.
    rewrite Ucur, Usrw. cbn [globals set_globals srw set_srw].
    intros Hrew.
    assert (Hn : next_state (loop_every_pass inpA w) <> REWARD) by congruence.
    destruct (rewarding_run K StateResponseWindow_set_licking_variables
                (millis_loop inpA)
                (fst (update (StateResponseWindow_vtable K) (srw w)
                        (loop_every_pass inpA w)))
                (loop_every_pass inpA w) Hr Hn Hrew) as [H1 [H2 H3]].
    split; [exact H1|]. split; [exact H2 | exact H3]. }
  destruct HA as [HA1 [HA2 HA3]].
  split; [exact HA1|]. split; [exact HA2|]. split; [exact HA3|].
  rewrite (loop_in_response_window K inpB w2 Hcur2). cbv zeta.
  set (g := loop_every_pass inpB w2).
  set (v := StateResponseWindow_vtable K).
  set (this := fst (update v (srw w2) g)).
  assert (Ht : timer this = timer (srw (Sketch.loop K inpA w))).
  { subst this. rewrite <- Hsrw. reflexivity. }
  assert (Hnz : timer this <> 0) by (unfold is_ulong in Hr; lia).
  match goal with |- context [loop_update_state inpB ?w1] =>
    destruct (loop_update_state_objects inpB w1) as [_ [Usrw _]]
  end.
  rewrite Usrw. cbn [srw set_srw]. rewrite <- Ht.
  destruct (run_active v (millis_loop inpB) this g Hnz)
    as [[_ [Etr Et0]] | [_ [_ [Etr Hkeep]]]]; rewrite Etr.
  - split; [intros [H|[]]; discriminate | right; exact Et0].
  - split; [intros [H|[]]; discriminate | left].
    apply Hkeep. apply ResponseWindow_loop_keeps_timer.
Qed.

(** X20 at the rewarded trial: the lick at 60 is rewarded, and the pass at
    563 finds the window with the deadline 45054 it was given at 54. *)
Lemma reward_keeps_the_deadline_witness :
  millis_loop (quiet 60 1023)
    < timer (srw (Sketch.loop sample_codes (quiet 60 1023)
                    (passes sample_codes (firstn 6 rewarded_trial) initial_world))) /\
  flag_stop (srw (Sketch.loop sample_codes (quiet 60 1023)
                    (passes sample_codes (firstn 6 rewarded_trial) initial_world)))
    = false /\
  (timer (srw (passes sample_codes (firstn 6 rewarded_trial) initial_world)) <> 0 ->
   timer (srw (Sketch.loop sample_codes (quiet 60 1023)
                 (passes sample_codes (firstn 6 rewarded_trial) initial_world)))
     = timer (srw (passes sample_codes (firstn 6 rewarded_trial) initial_world))) /\
  ~ In Setup (trace (run (StateResponseWindow_vtable sample_codes)
                       (millis_loop (quiet 563 0))
                       (fst (update (StateResponseWindow_vtable sample_codes)
                               (srw world_back_in_window)
                               (loop_every_pass (quiet 563 0) world_back_in_window)))
                       (loop_every_pass (quiet 563 0) world_back_in_window))) /\
  (timer (srw (Sketch.loop sample_codes (quiet 563 0) world_back_in_window))
     = timer (srw (Sketch.loop sample_codes (quiet 60 1023)
                     (passes sample_codes (firstn 6 rewarded_trial) initial_world))) \/
   timer (srw (Sketch.loop sample_codes (quiet 563 0) world_back_in_window)) = 0).
Proof.
  apply (reward_keeps_the_deadline sample_codes (quiet 60 1023) (quiet 563 0)
           (passes sample_codes (firstn 6 rewarded_trial) initial_world)
           world_back_in_window).
  - reflexivity.
  - reflexivity.
  - vm_compute. split; congruence.
  - reflexivity.
  - vm_compute. reflexivity.
Defined.
